(** * another-browserify-brunch: a shallow embedding of the plugin

    The repository ships one source file holding two near-identical variants
    of the same Brunch plugin:

    - the gulp variant (first half of [src/index.js]): the bundle is piped
      through vinyl/gulp stages (source, buffer, sourcemaps, user stages,
      uglify, rename, dest);
    - the exorcist variant (second half): the bundle is piped through
      [exorcist] straight into a file write stream, and minification is a
      bundler transform ([uglifyify]).

    JavaScript values are modelled by [JsVal]; plain objects live in a heap
    so that object identity, aliasing and freshness can be stated.  Calls
    into collaborator libraries (browserify, watchify, gulp plugins, chalk,
    touch, console) are recorded, in program order, in a trace of
    [Effect]s.  A synchronous [throw] is the [Thrown] outcome. *)

From Stdlib Require Import ZArith Lia Ascii.
From stdpp Require Import base option list gmap strings pretty.

Local Set Warnings "-register-all".
Local Open Scope Z_scope.

(** ** JavaScript values *)

Definition loc := positive.

(** Arrays and functions are never mutated by the plugin and are kept by
    value; a function value is a zero-argument factory, identified by the
    name of the stream it instantiates when called.  Plain objects are
    references into the heap. *)
Inductive JsVal :=
  | JUndefined
  | JNull
  | JBool (b : bool)
  | JNum (n : Z)
  | JStr (s : string)
  | JArr (elems : list JsVal)
  | JFun (makes : string)
  | JObj (l : loc).

(** ToBoolean, as used by [if (v)], [!v], [a && b] and [a || b]. *)
Definition truthy (v : JsVal) : bool :=
  match v with
  | JUndefined | JNull => false
  | JBool b => b
  | JNum n => negb (n =? 0)
  | JStr s => negb (String.eqb s "")
  | JArr _ | JFun _ | JObj _ => true
  end.

(** [v instanceof Array] *)
Definition instanceof_Array (v : JsVal) : bool :=
  match v with JArr _ => true | _ => false end.

(** [v instanceof Function] *)
Definition instanceof_Function (v : JsVal) : bool :=
  match v with JFun _ => true | _ => false end.

(** ** String helpers of the source: [indexOf], [substr] *)

(** [subject.indexOf(query)]: position of the first occurrence of [query]
    in [subject], or -1. *)
Fixpoint indexOf_from (i : nat) (subject query : string) : Z :=
  if String.prefix query subject then Z.of_nat i
  else match subject with
       | EmptyString => -1
       | String _ rest => indexOf_from (S i) rest query
       end.

Definition indexOf (subject query : string) : Z := indexOf_from 0 subject query.

(** [subject.substr(start)] for a non-negative [start]. *)
Fixpoint substr (start : nat) (subject : string) : string :=
  match start, subject with
  | O, _ => subject
  | S n, EmptyString => EmptyString
  | S n, String _ rest => substr n rest
  end.

(** [stripFromBeginning(subject, query)]; [None] is an absent ([undefined])
    query, the empty string is the other falsy query. *)
Definition stripFromBeginning (subject : string) (query : option string) : string :=
  match query with
  | None => subject
  | Some q =>
      if negb (truthy (JStr q)) then subject
      else if indexOf subject q =? 0 then substr (String.length q) subject
      else subject
  end.

(** ** The world, effects and the monad of plugin code *)

(** A pair [seconds, nanoseconds] as returned by [process.hrtime()]. *)
Definition HrTime : Type := Z * Z.

(** Options handed to [gulp-rename]. *)
Record RenameOptions := {
  dirname : string;
  basename : string;
  extname : string;
}.

(** A stream handed to [.pipe()]. *)
Inductive Stage :=
  | Source (filename : string)          (* vinyl-source-stream *)
  | Buffer                              (* vinyl-buffer *)
  | SourcemapsInit (loadMaps : bool)    (* sourcemaps.init({loadMaps: ..}) *)
  | Custom (makes : string)             (* the result of gulpPipeCreateFn() *)
  | Uglify (options : loc)              (* gulp-uglify(options) *)
  | Rename (options : RenameOptions)    (* gulp-rename(options) *)
  | SourcemapsWrite (dir : string)      (* sourcemaps.write(dir) *)
  | Dest (dir : string)                 (* gulp.dest(dir) *)
  | Exorcist (mapFile : string)         (* exorcist(mapFile) *)
  | WriteStream (file : string).        (* fs.createWriteStream(file) *)

(** The closures the plugin registers as event listeners. *)
Inductive Handler :=
  | OnUpdate                             (* this.bundle.bind(this) *)
  | OnBundleError                        (* function(error) { console.error(..) } *)
  | OnFinish (changedFiles : option (list string)) (beginTime : HrTime).

(** Calls into collaborators, in program order. *)
Inductive Effect :=
  | EConsoleLog (args : list string)
  | EConsoleError (args : list string)
  | EBrowserify (bOptions : gmap string JsVal)
  | EWatchify
  | ETransform (tr : JsVal) (global : bool)
  | EAdd (file : string)
  | EMkdirp (dir : string)
  | EOn (event : string) (h : Handler)
  | EBundlerBundle
  | EPipe (s : Stage)
  | ETouch (file : string)
  | EClose.

Inductive JsError :=
  | Error (message : string)
  | TypeError (message : string).

(** The heap of plain objects, the modification times of the files the
    plugin touches, and the wall clock read by [touch]. *)
Record World := {
  heap : gmap loc (gmap string JsVal);
  mtimes : gmap string Z;
  clock : Z;
}.

Inductive Outcome (A : Type) :=
  | Ok (a : A)
  | Thrown (e : JsError).
Arguments Ok {A} a.
Arguments Thrown {A} e.

Record Run (A : Type) := {
  outcome : Outcome A;
  world : World;
  trace : list Effect;
}.
Arguments Build_Run {A} _ _ _.
Arguments outcome {A} _.
Arguments world {A} _.
Arguments trace {A} _.

Definition M (A : Type) : Type := World → Run A.

#[global] Instance M_ret : MRet M := λ A a w,
  {| outcome := Ok a; world := w; trace := [] |}.

#[global] Instance M_bind : MBind M := λ A B f m w,
  let r := m w in
  match outcome r with
  | Ok a =>
      let r' := f a (world r) in
      {| outcome := outcome r'; world := world r'; trace := trace r ++ trace r' |}
  | Thrown e => {| outcome := Thrown e; world := world r; trace := trace r |}
  end.

(** [r], with [t] logged before it. *)
Definition after {A} (t : list Effect) (r : Run A) : Run A :=
  {| outcome := outcome r; world := world r; trace := t ++ trace r |}.

Definition skip : M unit := mret tt.

Definition throw {A} (e : JsError) : M A := λ w,
  {| outcome := Thrown e; world := w; trace := [] |}.

Definition emit (e : Effect) : M unit := λ w,
  {| outcome := Ok tt; world := w; trace := [e] |}.

Definition pipe (s : Stage) : M unit := emit (EPipe s).
Definition console_log (args : list string) : M unit := emit (EConsoleLog args).
Definition console_error (args : list string) : M unit := emit (EConsoleError args).

(** The object literal [{}]: a new object at an address not yet in use. *)
Definition alloc (props : gmap string JsVal) : M loc := λ w,
  let l := fresh (dom (heap w)) in
  {| outcome := Ok l;
     world := {| heap := <[l := props]> (heap w); mtimes := mtimes w; clock := clock w |};
     trace := [] |}.

(** The own properties of the object at [l]. *)
Definition props_of (h : gmap loc (gmap string JsVal)) (l : loc) : gmap string JsVal :=
  default ∅ (h !! l).

(** [key in obj] *)
Definition has_property (l : loc) (key : string) : M bool := λ w,
  {| outcome := Ok (bool_decide (is_Some (props_of (heap w) l !! key)));
     world := w; trace := [] |}.

(** [obj.key] as read by the callee of a call that received [obj]. *)
Definition get_property (h : gmap loc (gmap string JsVal)) (l : loc) (key : string) : JsVal :=
  default JUndefined (props_of h l !! key).

(** [obj[key] = v] *)
Definition set_property (l : loc) (key : string) (v : JsVal) : M unit := λ w,
  {| outcome := Ok tt;
     world := {| heap := <[l := <[key := v]> (props_of (heap w) l)]> (heap w);
                 mtimes := mtimes w; clock := clock w |};
     trace := [] |}.

(** [touch.sync(file)]: sets the modification time to the current time,
    creating the file when it does not exist. *)
Definition touch_sync (file : string) : M unit := λ w,
  {| outcome := Ok tt;
     world := {| heap := heap w; mtimes := <[file := clock w]> (mtimes w); clock := clock w |};
     trace := [ETouch file] |}.

(** [list.forEach(f)] *)
Fixpoint forEach {A} (l : list A) (f : A → M unit) : M unit :=
  match l with
  | [] => skip
  | x :: rest => f x;; forEach rest f
  end.

Definition LF : string := String "010"%char EmptyString.
Definition TAB : string := String "009"%char EmptyString.

(** ** The host configuration *)

(** [brunchConfig.plugins.anotherBrowserify].  Fields the code only tests
    for presence are options; [gulpPipeCreateFns], whose shape the code
    checks at run time, is an arbitrary value. *)
Record PluginConfig := {
  entry : string;
  outFile : string;
  mapFile : string;
  uglifyOptions : option loc;
  browserifyOptions : option loc;
  transforms : option (list JsVal);
  gulpPipeCreateFns : JsVal;
  touchOnCompile : option string;
}.

Record BrunchConfig := {
  sourceMaps : bool;
  optimize : bool;
  paths_public : string;
  anotherBrowserify : PluginConfig;
}.

(** Node's [path] and [process], and [chalk]: collaborators whose results
    the plugin only passes along. *)
Class Node := {
  path_resolve1 : string → string;
  path_resolve2 : string → string → string;
  path_dirname : string → string;
  path_basename : string → string → string;
  path_extname : string → string;
  path_join : string → string → string;
  path_relative : string → string → string;
  path_sep : string;
  process_cwd : string;
  chalk_cyan : string → string;
  chalk_red : string → string;
  chalk_underline : string → string;
}.

(** ** Code shared by the two variants *)

(** The loop over [process.argv] that sets [watching_]. *)
Fixpoint scan_argv (argv : list string) : bool :=
  match argv with
  | [] => false
  | arg :: rest => if String.eqb arg "watch" then true else scan_argv rest
  end.

(** The initial value of [bOptions]. *)
Definition default_bOptions : gmap string JsVal :=
  {[ "extensions" := JArr [JStr ".js"; JStr ".es6"] ]}.

(** [for (var key in src) bOptions[key] = src[key]]; nothing is
    enumerated when [src] is [undefined]. *)
Definition copy_keys (src : option loc) (bOptions : gmap string JsVal) : M (gmap string JsVal) := λ w,
  {| outcome := Ok match src with
                   | Some l => map_fold (λ key v acc, <[key := v]> acc) bOptions (props_of (heap w) l)
                   | None => bOptions
                   end;
     world := w; trace := [] |}.

(** Lines 64-78 and 230-244: the options handed to [browserify]. *)
Definition make_bOptions (brunchConfig : BrunchConfig) (watching : bool) : M (gmap string JsVal) :=
  bOptions ← copy_keys (browserifyOptions (anotherBrowserify brunchConfig)) default_bOptions;
  let bOptions := if sourceMaps brunchConfig then <["debug" := JBool true]> bOptions else bOptions in
  if watching then
    cache ← alloc ∅;
    let bOptions := <["cache" := JObj cache]> bOptions in
    packageCache ← alloc ∅;
    mret (<["packageCache" := JObj packageCache]> bOptions)
  else mret bOptions.

(** [changedFiles && changedFiles.length > 1] *)
Definition multiple (changedFiles : option (list string)) : bool :=
  match changedFiles with
  | Some files => bool_decide (1 < length files)%nat
  | None => false
  end.

(** [Math.floor(seconds * 1000 + nanoseconds / 1000000)], in exact
    arithmetic.  The source computes on doubles; the two agree for
    readings less than 2^34 milliseconds apart, beyond which the sum is
    rounded before it is floored. *)
Definition elapsed_ms (beginTime endTime : HrTime) : Z :=
  let seconds := endTime.1 - beginTime.1 in
  let nanoseconds := endTime.2 - beginTime.2 in
  seconds * 1000 + nanoseconds `div` 1000000.

(** How the environment ends a pipeline run: the destination stream emits
    [finish], or the bundle stream emits [error]. *)
Inductive Completion :=
  | Finished (endTime : HrTime)
  | Failed (error : string).

(** ** Reading a trace *)

(** The chain of streams attached by [.pipe()], in order. *)
Definition stages (t : list Effect) : list Stage :=
  omap (λ e, match e with EPipe s => Some s | _ => None end) t.

(** The lines written with [console.log]. *)
Definition logged (t : list Effect) : list (list string) :=
  omap (λ e, match e with EConsoleLog args => Some args | _ => None end) t.

(** The number of calls of [this.bundler_.bundle()]. *)
Definition bundler_runs (t : list Effect) : nat :=
  length (omap (λ e, match e with EBundlerBundle => Some tt | _ => None end) t).

(** The listeners registered for [event]. *)
Definition listeners (event : string) (t : list Effect) : list Handler :=
  omap (λ e, match e with
             | EOn ev h => if String.eqb ev event then Some h else None
             | _ => None
             end) t.

(** The option objects handed to [browserify]. *)
Definition browserify_calls (t : list Effect) : list (gmap string JsVal) :=
  omap (λ e, match e with EBrowserify bOptions => Some bOptions | _ => None end) t.

(** The number of calls of [watchify]. *)
Definition watchify_calls (t : list Effect) : nat :=
  length (omap (λ e, match e with EWatchify => Some tt | _ => None end) t).

(** The transforms registered on the bundler, with their [global] flag. *)
Definition transform_calls (t : list Effect) : list (JsVal * bool) :=
  omap (λ e, match e with ETransform tr g => Some (tr, g) | _ => None end) t.

(** The files handed to [touch.sync]. *)
Definition touched (t : list Effect) : list string :=
  omap (λ e, match e with ETouch file => Some file | _ => None end) t.

(** ** The gulp variant (lines 1-190) *)

Module Gulp.
Section WithNode.
Context `{Node}.

Record Plugin := {
  brunchConfig_ : BrunchConfig;
  entryFile_ : string;
  gulpDestDir_ : string;
  outFile_ : string;
  uglifyOptions_ : loc;
  gulpRenameOptions_ : RenameOptions;
  watching_ : bool;
}.

Definition config_ (self : Plugin) : PluginConfig :=
  anotherBrowserify (brunchConfig_ self).

Definition shortFileName (fileName : string) : string :=
  stripFromBeginning fileName (Some (process_cwd +:+ path_sep)).

Definition not_an_array : JsError :=
  Error "AnotherBrowserify: 'gulpPipeCreateFns' configuration variable must be an array of functions that each return a newly instantiated gulp plugin".

Definition not_a_function (i : nat) : JsError :=
  Error ("AnotherBrowserify: 'gulpPipeCreateFns[" +:+ pretty i +:+ "]' must be a function").

(** The callback of [gulpPipeCreateFns.forEach], from index [i] on. *)
Fixpoint pipe_custom (i : nat) (fns : list JsVal) : M unit :=
  match fns with
  | [] => skip
  | gulpPipeCreateFn :: rest =>
      match gulpPipeCreateFn with
      | JFun makes => pipe (Custom makes);; pipe_custom (S i) rest
      | _ => throw (not_a_function i)
      end
  end.

(** [AnotherBrowserifyBrunchPlugin.prototype.bundle]; [beginTime] is the
    reading of [process.hrtime()] on entry. *)
Definition bundle (self : Plugin) (changedFiles : option (list string))
    (beginTime : HrTime) : M unit :=
  let multipleFilesChanged := multiple changedFiles in
  (if multipleFilesChanged
   then console_log [LF +:+ "Start"; chalk_cyan "bundling"] else skip);;
  emit EBundlerBundle;;
  emit (EOn "error" OnBundleError);;
  pipe (Source (entryFile_ self));;
  pipe Buffer;;
  (if sourceMaps (brunchConfig_ self) then pipe (SourcemapsInit true) else skip);;
  (if truthy (gulpPipeCreateFns (config_ self)) then
     match gulpPipeCreateFns (config_ self) with
     | JArr fns => pipe_custom 0 fns
     | _ => throw not_an_array
     end
   else skip);;
  (if optimize (brunchConfig_ self) then pipe (Uglify (uglifyOptions_ self)) else skip);;
  pipe (Rename (gulpRenameOptions_ self));;
  (if sourceMaps (brunchConfig_ self) then pipe (SourcemapsWrite ".") else skip);;
  pipe (Dest (gulpDestDir_ self));;
  emit (EOn "finish" (OnFinish changedFiles beginTime)).

(** The listener on the bundle stream's [error]. *)
Definition on_error (error : string) : M unit :=
  console_error [chalk_red (chalk_red error)].

(** The listener on the destination's [finish]; [endTime] is the reading
    of [process.hrtime()] when it runs.  For an empty [changedFiles],
    [changedFiles[0]] is [undefined] and [stripFromBeginning] fails on
    [undefined.indexOf]. *)
Definition on_finish (self : Plugin) (changedFiles : option (list string))
    (beginTime endTime : HrTime) : M unit :=
  let ms := elapsed_ms beginTime endTime in
  match changedFiles with
  | Some files =>
      if multiple changedFiles then
        forEach files (λ changedFile,
          let friendlyName := shortFileName changedFile in
          console_log [TAB +:+ "Compiled:"; chalk_underline friendlyName]);;
        console_log ["Finished"; chalk_cyan "bundle"; "in"; pretty ms +:+ "ms" +:+ LF]
      else
        match files with
        | first :: _ =>
            let friendlyName := shortFileName first in
            console_log [TAB +:+ "Compiled:"; chalk_underline friendlyName; "in"; pretty ms +:+ "ms"]
        | [] => throw (TypeError "Cannot read property 'indexOf' of undefined")
        end
  | None => skip
  end;;
  match touchOnCompile (config_ self) with
  | Some file =>
      if truthy (JStr file) then
        touch_sync (path_resolve1 file);;
        console_log [TAB +:+ "Triggering browser reload"]
      else skip
  | None => skip
  end.

(** The constructor up to, and excluding, its final [this.bundle()]. *)
Definition init (brunchConfig : BrunchConfig) (argv : list string) : M Plugin :=
  let config := anotherBrowserify brunchConfig in
  let entryFile := path_resolve1 (entry config) in
  let gulpDestDir := path_resolve1 (paths_public brunchConfig) in
  let outFile_abs := path_resolve2 (paths_public brunchConfig) (outFile config) in
  uglifyOptions ← match uglifyOptions config with
                  | Some l => mret l
                  | None => alloc ∅
                  end;
  (if sourceMaps brunchConfig then
     present ← has_property uglifyOptions "compress";
     if negb present then set_property uglifyOptions "compress" (JBool false) else skip
   else skip);;
  let extension := path_extname (outFile config) in
  let gulpRenameOptions :=
    {| dirname := path_dirname (outFile config);
       basename := path_basename (outFile config) extension;
       extname := extension |} in
  let watching := scan_argv argv in
  bOptions ← make_bOptions brunchConfig watching;
  emit (EBrowserify bOptions);;
  (if watching then emit EWatchify else skip);;
  match transforms config with
  | Some trs => forEach trs (λ tr, emit (ETransform tr false))
  | None => skip
  end;;
  emit (EAdd (entry config));;
  emit (EMkdirp (path_dirname outFile_abs));;
  (if watching then emit (EOn "update" OnUpdate) else skip);;
  mret {| brunchConfig_ := brunchConfig;
          entryFile_ := entryFile;
          gulpDestDir_ := gulpDestDir;
          outFile_ := outFile_abs;
          uglifyOptions_ := uglifyOptions;
          gulpRenameOptions_ := gulpRenameOptions;
          watching_ := watching |}.

(** [new AnotherBrowserifyBrunchPlugin(brunchConfig)], run with
    [process.argv] equal to [argv]. *)
Definition AnotherBrowserifyBrunchPlugin (brunchConfig : BrunchConfig) (argv : list string)
    (beginTime : HrTime) : M Plugin :=
  self ← init brunchConfig argv;
  bundle self None beginTime;;
  mret self.

Definition teardown (self : Plugin) : M unit :=
  if watching_ self then emit EClose else skip.

(** One pipeline run as the environment sees it: [bundle] attaches the
    chain and its listeners, then the completion is delivered to the
    listeners this call registered. *)
Definition deliver (self : Plugin) (c : Completion) (registered : list Effect) : M unit :=
  match c with
  | Finished endTime =>
      forEach (listeners "finish" registered) (λ h,
        match h with
        | OnFinish changedFiles beginTime => on_finish self changedFiles beginTime endTime
        | _ => skip
        end)
  | Failed error =>
      forEach (listeners "error" registered) (λ h,
        match h with
        | OnBundleError => on_error error
        | _ => skip
        end)
  end.

Definition run (self : Plugin) (changedFiles : option (list string))
    (beginTime : HrTime) (c : Completion) : M unit := λ w,
  let r := bundle self changedFiles beginTime w in
  match outcome r with
  | Ok _ =>
      let r' := deliver self c (trace r) (world r) in
      {| outcome := outcome r'; world := world r'; trace := trace r ++ trace r' |}
  | Thrown e => r
  end.
End WithNode.
End Gulp.

(** ** The exorcist variant (lines 191-332) *)

Module Exorcist.
Section WithNode.
Context `{Node}.

Record Plugin := {
  brunchConfig_ : BrunchConfig;
  outFile_ : string;
  outMapFile_ : string;
  watching_ : bool;
}.

Definition config_ (self : Plugin) : PluginConfig :=
  anotherBrowserify (brunchConfig_ self).

Definition shortFileName (fileName : string) : string :=
  stripFromBeginning fileName (Some (process_cwd +:+ "/")).

Definition bundle (self : Plugin) (changedFiles : option (list string))
    (beginTime : HrTime) : M unit :=
  let multipleFilesChanged := multiple changedFiles in
  (if multipleFilesChanged
   then console_log [LF +:+ "Start"; chalk_cyan "bundling"] else skip);;
  emit EBundlerBundle;;
  emit (EOn "error" OnBundleError);;
  (if sourceMaps (brunchConfig_ self) then pipe (Exorcist (outMapFile_ self)) else skip);;
  pipe (WriteStream (outFile_ self));;
  emit (EOn "finish" (OnFinish changedFiles beginTime)).

(** The listener on the bundle stream's [error]. *)
Definition on_error (error : string) : M unit :=
  console_error [chalk_red (chalk_red error)].

(** The listener on the write stream's [finish]: the sentinel first, then
    the report. *)
Definition on_finish (self : Plugin) (changedFiles : option (list string))
    (beginTime endTime : HrTime) : M unit :=
  match touchOnCompile (config_ self) with
  | Some file =>
      if truthy (JStr file) then touch_sync (path_resolve1 file) else skip
  | None => skip
  end;;
  let ms := elapsed_ms beginTime endTime in
  match changedFiles with
  | Some files =>
      if multiple changedFiles then
        forEach files (λ changedFile,
          let friendlyName := shortFileName changedFile in
          console_log [TAB +:+ "Compiled:"; chalk_underline friendlyName]);;
        console_log ["Finished"; chalk_cyan "bundle"; "in"; pretty ms +:+ "ms" +:+ LF]
      else
        match files with
        | first :: _ =>
            let friendlyName := shortFileName first in
            console_log [LF +:+ "Compiled:"; chalk_underline friendlyName; "in"; pretty ms +:+ "ms"]
        | [] => throw (TypeError "Cannot read property 'indexOf' of undefined")
        end
  | None => skip
  end.

Definition init (brunchConfig : BrunchConfig) (argv : list string) : M Plugin :=
  let config := anotherBrowserify brunchConfig in
  let outFile_abs := path_resolve2 (paths_public brunchConfig) (outFile config) in
  let outMapFile := path_resolve2 (paths_public brunchConfig) (mapFile config) in
  let watching := scan_argv argv in
  bOptions ← make_bOptions brunchConfig watching;
  emit (EBrowserify bOptions);;
  (if watching then emit EWatchify else skip);;
  match transforms config with
  | Some trs => forEach trs (λ tr, emit (ETransform tr false))
  | None => skip
  end;;
  (if optimize brunchConfig then emit (ETransform (JFun "uglifyify") true) else skip);;
  emit (EAdd (entry config));;
  emit (EMkdirp (path_dirname outFile_abs));;
  (if watching then emit (EOn "update" OnUpdate) else skip);;
  mret {| brunchConfig_ := brunchConfig;
          outFile_ := outFile_abs;
          outMapFile_ := outMapFile;
          watching_ := watching |}.

(** [new AnotherBrowserifyBrunchPlugin(brunchConfig)], run with
    [process.argv] equal to [argv]. *)
Definition AnotherBrowserifyBrunchPlugin (brunchConfig : BrunchConfig) (argv : list string)
    (beginTime : HrTime) : M Plugin :=
  self ← init brunchConfig argv;
  bundle self None beginTime;;
  mret self.

Definition teardown (self : Plugin) : M unit :=
  if watching_ self then emit EClose else skip.

(** One pipeline run as the environment sees it: [bundle] attaches the
    chain and its listeners, then the completion is delivered to the
    listeners this call registered. *)
Definition deliver (self : Plugin) (c : Completion) (registered : list Effect) : M unit :=
  match c with
  | Finished endTime =>
      forEach (listeners "finish" registered) (λ h,
        match h with
        | OnFinish changedFiles beginTime => on_finish self changedFiles beginTime endTime
        | _ => skip
        end)
  | Failed error =>
      forEach (listeners "error" registered) (λ h,
        match h with
        | OnBundleError => on_error error
        | _ => skip
        end)
  end.

Definition run (self : Plugin) (changedFiles : option (list string))
    (beginTime : HrTime) (c : Completion) : M unit := λ w,
  let r := bundle self changedFiles beginTime w in
  match outcome r with
  | Ok _ =>
      let r' := deliver self c (trace r) (world r) in
      {| outcome := outcome r'; world := world r'; trace := trace r ++ trace r' |}
  | Thrown e => r
  end.
End WithNode.
End Exorcist.

(** ** What a drained chain writes *)

(** A vinyl file: its path relative to its base, and its contents. *)
Record Vinyl := {
  relative : string;
  contents : string;
}.

(** What flows between two streams: the bundler's text, or vinyl files. *)
Inductive Flow :=
  | Text (raw : string)
  | Files (files : list Vinyl).

Section Drain.
Context `{Node}.

(** The streams whose effect on the artifact is not fixed by the plugin
    (source-map bookkeeping, user stages, the minifier, exorcist). *)
Variable opaque : Stage → Flow → Flow.

(** Modelled from the spec: the collaborator streams [vinyl-source-stream],
    [vinyl-buffer], [gulp-rename] and [gulp.dest] are not part of this
    repository.  Section 4.3 has them serialise the bundler's output into
    a single in-memory artifact (step 1), rename the artifact to the
    configured directory, base name and extension (step 5) and write it
    under the output directory (step 7); none of them alters the bytes. *)
Definition through (s : Stage) (flow : Flow) : Flow :=
  match s, flow with
  | Source filename, Text raw =>
      Files [{| relative := path_relative process_cwd filename; contents := raw |}]
  | Buffer, _ => flow
  | Rename o, Files files =>
      Files (map (λ f, {| relative := path_join (dirname o) (basename o +:+ extname o);
                          contents := contents f |}) files)
  | Dest _, _ => flow
  | WriteStream _, _ => flow
  | _, _ => opaque s flow
  end.

(** The files a destination writes when [flow] reaches it: [gulp.dest]
    resolves each file's relative path against its directory,
    [fs.createWriteStream] receives the text as it is. *)
Definition writes (s : Stage) (flow : Flow) : list (string * string) :=
  match s, flow with
  | Dest dir, Files files =>
      map (λ f, (path_resolve2 dir (relative f), contents f)) files
  | WriteStream file, Text raw => [(file, raw)]
  | _, _ => []
  end.

Fixpoint drain (chain : list Stage) (flow : Flow) : list (string * string) :=
  match chain with
  | [] => []
  | s :: rest => writes s flow ++ drain rest (through s flow)
  end.
End Drain.

(** ** A small POSIX instance of [Node], to run the model on examples

    Paths are joined with a slash and not normalised; chalk is the
    identity, as on a terminal without colours. *)

Module Posix.
(** The text after the last [sep] and the text before it. *)
Fixpoint split_last (sep : ascii) (s : string) : option (string * string) :=
  match s with
  | EmptyString => None
  | String c rest =>
      match split_last sep rest with
      | Some (before, after) => Some (String c before, after)
      | None => if Ascii.eqb c sep then Some (EmptyString, rest) else None
      end
  end.

Definition base (p : string) : string :=
  match split_last "/" p with Some (_, b) => b | None => p end.

Definition dirname (p : string) : string :=
  match split_last "/" p with
  | Some (EmptyString, _) => "/"
  | Some (d, _) => d
  | None => "."
  end.

Definition extname (p : string) : string :=
  match split_last "." (base p) with
  | Some (EmptyString, _) => ""
  | Some (_, e) => "." +:+ e
  | None => ""
  end.

Definition strip_suffix (s ext : string) : string :=
  let n := (String.length s - String.length ext)%nat in
  if String.eqb (substr n s) ext then String.substring 0 n s else s.

Definition basename (p ext : string) : string := strip_suffix (base p) ext.

Definition join (a b : string) : string := a +:+ "/" +:+ b.

Definition cwd : string := "/home/app".

Definition resolve1 (p : string) : string :=
  if String.prefix "/" p then p else join cwd p.

Definition resolve2 (a b : string) : string :=
  if String.prefix "/" b then b else join (resolve1 a) b.

Definition node : Node :=
  {| path_resolve1 := resolve1;
     path_resolve2 := resolve2;
     path_dirname := dirname;
     path_basename := basename;
     path_extname := extname;
     path_join := join;
     path_relative := λ from to, stripFromBeginning to (Some (from +:+ "/"));
     path_sep := "/";
     process_cwd := cwd;
     chalk_cyan := id;
     chalk_red := id;
     chalk_underline := id |}.
End Posix.

(** ** Sample inputs *)

Module Sample.
(** A host heap holding an [uglifyOptions] object at address 1 and a
    [browserifyOptions] object at address 2; the sentinel file was last
    modified at time 90 and the clock reads 100. *)
Definition world : World :=
  {| heap := {[ 1%positive := {[ "compress" := JBool true ]};
                2%positive := {[ "debug" := JBool false;
                                 "extensions" := JArr [JStr ".coffee"];
                                 "cache" := JNum 7 ]} ]};
     mtimes := {[ "/home/app/tmp/reload" := 90 ]};
     clock := 100 |}.

Definition config (sm opt : bool) (fns : JsVal) : BrunchConfig :=
  {| sourceMaps := sm;
     optimize := opt;
     paths_public := "public";
     anotherBrowserify :=
       {| entry := "app/main.js";
          outFile := "js/app.min.js";
          mapFile := "js/app.js.map";
          uglifyOptions := Some 1%positive;
          browserifyOptions := Some 2%positive;
          transforms := Some [JStr "babelify"];
          gulpPipeCreateFns := fns;
          touchOnCompile := Some "tmp/reload" |} |}.

(** The same host configuration without an [uglifyOptions] setting. *)
Definition config_plain (sm opt : bool) (fns : JsVal) : BrunchConfig :=
  {| sourceMaps := sm;
     optimize := opt;
     paths_public := "public";
     anotherBrowserify :=
       {| entry := "app/main.js";
          outFile := "js/app.min.js";
          mapFile := "js/app.js.map";
          uglifyOptions := None;
          browserifyOptions := Some 2%positive;
          transforms := Some [JStr "babelify"];
          gulpPipeCreateFns := fns;
          touchOnCompile := Some "tmp/reload" |} |}.

(** The gulp plugin built from [config sm opt fns] on the POSIX instance. *)
Definition gulp (sm opt : bool) (fns : JsVal) : Gulp.Plugin :=
  {| Gulp.brunchConfig_ := config sm opt fns;
     Gulp.entryFile_ := "/home/app/app/main.js";
     Gulp.gulpDestDir_ := "/home/app/public";
     Gulp.outFile_ := "/home/app/public/js/app.min.js";
     Gulp.uglifyOptions_ := 1%positive;
     Gulp.gulpRenameOptions_ :=
       {| dirname := "js"; basename := "app.min"; extname := ".js" |};
     Gulp.watching_ := false |}.

(** The exorcist plugin built from [config sm opt fns]. *)
Definition exorcist (sm opt : bool) (fns : JsVal) : Exorcist.Plugin :=
  {| Exorcist.brunchConfig_ := config sm opt fns;
     Exorcist.outFile_ := "/home/app/public/js/app.min.js";
     Exorcist.outMapFile_ := "/home/app/public/js/app.js.map";
     Exorcist.watching_ := false |}.
End Sample.

(** ** Vocabulary of the statements *)

(** [subject] begins with [query]. *)
Definition begins_with (subject query : string) : Prop :=
  ∃ rest, subject = query +:+ rest.

(** The host's [browserifyOptions] as found in heap [h]; empty when the
    setting is absent. *)
Definition user_options (cfg : BrunchConfig) (h : gmap loc (gmap string JsVal)) : gmap string JsVal :=
  match browserifyOptions (anotherBrowserify cfg) with
  | Some l => props_of h l
  | None => ∅
  end.

(** [l] holds a new empty object in [h']: it was not an address of [h]. *)
Definition fresh_empty (h h' : gmap loc (gmap string JsVal)) (l : loc) : Prop :=
  (l ∉ dom h) ∧ h' !! l = Some ∅.

(** The [compress] entry of the host's [uglifyOptions] as found in heap
    [h], if the host supplied one. *)
Definition host_compress (cfg : BrunchConfig) (h : gmap loc (gmap string JsVal)) : option JsVal :=
  match uglifyOptions (anotherBrowserify cfg) with
  | Some l => props_of h l !! "compress"
  | None => None
  end.

(** The effects of the constructor after the options are built. *)
Definition wiring `{Node} (cfg : BrunchConfig) (argv : list string)
    (bOptions : gmap string JsVal) (minify : list Effect) : list Effect :=
  [EBrowserify bOptions]
  ++ (if scan_argv argv then [EWatchify] else [])
  ++ map (λ tr, ETransform tr false) (default [] (transforms (anotherBrowserify cfg)))
  ++ minify
  ++ [EAdd (entry (anotherBrowserify cfg));
      EMkdirp (path_dirname (path_resolve2 (paths_public cfg) (outFile (anotherBrowserify cfg))))]
  ++ (if scan_argv argv then [EOn "update" OnUpdate] else []).

(** Incremental caching follows the presence of ["watch"] among the
    arguments: with it, [bOptions] holds two distinct new empty objects
    under [cache] and [packageCache] and [watchify] is called once;
    without it, both entries are the host's (if any) and [watchify] is not
    called.  [h] is the heap before the constructor, [h'] the heap after. *)
Definition caching_iff_watch (argv : list string) (user : gmap string JsVal)
    (h h' : gmap loc (gmap string JsVal)) (bOptions : gmap string JsVal)
    (t : list Effect) : Prop :=
  ("watch" ∈ argv →
     ∃ c pc, bOptions !! "cache" = Some (JObj c) ∧
             bOptions !! "packageCache" = Some (JObj pc) ∧
             c ≠ pc ∧ fresh_empty h h' c ∧ fresh_empty h h' pc ∧
             watchify_calls t = 1%nat) ∧
  ("watch" ∉ argv →
     bOptions !! "cache" = user !! "cache" ∧
     bOptions !! "packageCache" = user !! "packageCache" ∧
     watchify_calls t = 0%nat).

(** [bOptions] is the host's [user] options copied over the defaults, with
    the forced flags applied afterwards. *)
Definition copied_then_forced (sm : bool) (argv : list string) (user : gmap string JsVal)
    (h h' : gmap loc (gmap string JsVal)) (bOptions : gmap string JsVal) : Prop :=
  (∀ k v, user !! k = Some v →
          (sm = true → k ≠ "debug") →
          ("watch" ∈ argv → k ≠ "cache" ∧ k ≠ "packageCache") →
          bOptions !! k = Some v) ∧
  (user !! "extensions" = None →
     bOptions !! "extensions" = Some (JArr [JStr ".js"; JStr ".es6"])) ∧
  (sm = true → bOptions !! "debug" = Some (JBool true)) ∧
  ("watch" ∈ argv →
     ∃ c pc, bOptions !! "cache" = Some (JObj c) ∧
             bOptions !! "packageCache" = Some (JObj pc) ∧
             c ≠ pc ∧ fresh_empty h h' c ∧ fresh_empty h h' pc).

(** The sentinel file: the resolved [touchOnCompile], when it is set to a
    non-empty path. *)
Definition sentinel `{Node} (config : PluginConfig) : option string :=
  match touchOnCompile config with
  | Some file => if truthy (JStr file) then Some (path_resolve1 file) else None
  | None => None
  end.

(** The world after the sentinel, if any, was touched. *)
Definition touch_world (target : option string) (w : World) : World :=
  match target with
  | Some file => {| heap := heap w; mtimes := <[file := clock w]> (mtimes w); clock := clock w |}
  | None => w
  end.

(** The lines of the completion report. *)
Definition compiled_line `{Node} (short : string → string) (file : string) : list string :=
  [TAB +:+ "Compiled:"; chalk_underline (short file)].

Definition finished_line `{Node} (ms : Z) : list string :=
  ["Finished"; chalk_cyan "bundle"; "in"; pretty ms +:+ "ms" +:+ LF].

Definition single_line `{Node} (lead : string) (short : string → string) (file : string)
    (ms : Z) : list string :=
  [lead +:+ "Compiled:"; chalk_underline (short file); "in"; pretty ms +:+ "ms"].

Definition start_bundling `{Node} : list string := [LF +:+ "Start"; chalk_cyan "bundling"].

Definition reload_line : list string := [TAB +:+ "Triggering browser reload"].

(** The report for a change notification: a batch summary for more than
    one file, a single line for one file, nothing without a notification. *)
Definition report `{Node} (lead : string) (short : string → string)
    (changedFiles : option (list string)) (ms : Z) : list (list string) :=
  match changedFiles with
  | Some files =>
      if multiple changedFiles
      then map (compiled_line short) files ++ [finished_line ms]
      else match files with
           | first :: _ => [single_line lead short first ms]
           | [] => []
           end
  | None => []
  end.

(** Code that leaves the world as it found it and touches no file. *)
Definition quiet {A} (m : M A) : Prop :=
  ∀ w, world (m w) = w ∧ touched (trace (m w)) = [].

(** The stream a well-formed element of [gulpPipeCreateFns] instantiates. *)
Definition factory (fn : JsVal) : option string :=
  match fn with JFun makes => Some makes | _ => None end.

(** The user-supplied stages, in the order supplied: none when
    [gulpPipeCreateFns] is absent (falsy), one per element when it is an
    array of functions; [None] when the setting is malformed. *)
Definition custom_names (fns : JsVal) : option (list string) :=
  if truthy fns then
    match fns with
    | JArr elems => mapM factory elems
    | _ => None
    end
  else Some [].

(** The ordered pipeline of section 4.3 of the specification. *)
Definition spec_chain `{Node} (self : Gulp.Plugin) (names : list string) : list Stage :=
  [Source (Gulp.entryFile_ self); Buffer]
  ++ (if sourceMaps (Gulp.brunchConfig_ self) then [SourcemapsInit true] else [])
  ++ map Custom names
  ++ (if optimize (Gulp.brunchConfig_ self) then [Uglify (Gulp.uglifyOptions_ self)] else [])
  ++ [Rename (Gulp.gulpRenameOptions_ self)]
  ++ (if sourceMaps (Gulp.brunchConfig_ self) then [SourcemapsWrite "."] else [])
  ++ [Dest (Gulp.gulpDestDir_ self)].

(** What [bundle] logs before it starts. *)
Definition start_line `{Node} (changedFiles : option (list string)) : list Effect :=
  if multiple changedFiles
  then [EConsoleLog [LF +:+ "Start"; chalk_cyan "bundling"]] else [].

(** The lines written with [console.error]. *)
Definition error_logged (t : list Effect) : list (list string) :=
  omap (λ e, match e with EConsoleError args => Some args | _ => None end) t.

(** The number of calls of [this.bundler_.close()]. *)
Definition closes (t : list Effect) : nat :=
  length (omap (λ e, match e with EClose => Some tt | _ => None end) t).

(** The time between two readings of [process.hrtime()], in nanoseconds. *)
Definition elapsed_ns (beginTime endTime : HrTime) : Z :=
  (endTime.1 - beginTime.1) * 1000000000 + (endTime.2 - beginTime.2).

(** The error thrown by [changedFiles[0]] being [undefined]. *)
Definition undefined_file : JsError :=
  TypeError "Cannot read property 'indexOf' of undefined".

(** * Properties *)

(** ** Strings *)

Lemma prefix_begins_with (query subject : string) :
  String.prefix query subject = true ↔ begins_with subject query.
Proof.
  revert subject. induction query as [|c query IH]; intros subject.
  - split; [intros _; by exists subject|]. by destruct subject.
  - destruct subject as [|d subject]; simpl.
    + split; [done|]. by intros [rest ?].
    + destruct (Ascii.ascii_dec c d) as [->|Hne].
      * rewrite IH. split; intros [rest Hrest]; exists rest.
        -- simpl. by rewrite Hrest.
        -- by injection Hrest.
      * split; [done|]. intros [rest Hrest]. by injection Hrest.
Qed.

Lemma indexOf_from_range (i : nat) (subject query : string) :
  indexOf_from i subject query = -1 ∨ Z.of_nat i ≤ indexOf_from i subject query.
Proof.
  revert i. induction subject as [|c subject IH]; intros i; cbn [indexOf_from].
  - destruct (String.prefix query ""); lia.
  - destruct (String.prefix query (String c subject)); [lia|].
    specialize (IH (S i)). lia.
Qed.

(** [subject.indexOf(query) === 0] exactly when [subject] begins with
    [query]. *)
Lemma indexOf_zero (subject query : string) :
  indexOf subject query = 0 ↔ begins_with subject query.
Proof.
  rewrite <-prefix_begins_with. unfold indexOf.
  destruct subject as [|c subject]; cbn [indexOf_from].
  - destruct (String.prefix query ""); split; (done || lia).
  - destruct (String.prefix query (String c subject)); [done|].
    split; [|done]. destruct (indexOf_from_range 1 subject query); lia.
Qed.

Lemma substr_app (query rest : string) :
  substr (String.length query) (query +:+ rest) = rest.
Proof. induction query; simpl; [by destruct rest|done]. Qed.

Lemma stripFromBeginning_begins (query rest : string) :
  stripFromBeginning (query +:+ rest) (Some query) = rest.
Proof.
  unfold stripFromBeginning. simpl.
  destruct (String.eqb_spec query "") as [->|_]; [done|]. simpl.
  assert (indexOf (query +:+ rest) query = 0) as ->.
  { apply indexOf_zero. by exists rest. }
  simpl. apply substr_app.
Qed.

Lemma stripFromBeginning_other (subject query : string) :
  ¬ begins_with subject query →
  stripFromBeginning subject (Some query) = subject.
Proof.
  intros Hno. unfold stripFromBeginning.
  destruct (negb (truthy (JStr query))); [done|].
  destruct (Z.eqb_spec (indexOf subject query) 0) as [Hz|_]; [|done].
  by apply indexOf_zero in Hz.
Qed.

(** C10.  In both variants the friendly name of a file is the part of its
    name after the prefix (working directory followed by the separator)
    when the name begins with that prefix, and the name itself otherwise;
    [stripFromBeginning] returns its subject unchanged for an empty or an
    absent query. *)
Theorem shortFileName_strips_cwd `{Node} (fileName : string) :
  (∀ rest, fileName = (process_cwd +:+ path_sep) +:+ rest →
     Gulp.shortFileName fileName = rest) ∧
  (¬ begins_with fileName (process_cwd +:+ path_sep) →
     Gulp.shortFileName fileName = fileName) ∧
  (∀ rest, fileName = (process_cwd +:+ "/") +:+ rest →
     Exorcist.shortFileName fileName = rest) ∧
  (¬ begins_with fileName (process_cwd +:+ "/") →
     Exorcist.shortFileName fileName = fileName) ∧
  stripFromBeginning fileName (Some "") = fileName ∧
  stripFromBeginning fileName None = fileName.
Proof.
  split; [|split; [|split; [|split; [|split]]]].
  - intros rest ->. apply stripFromBeginning_begins.
  - apply stripFromBeginning_other.
  - intros rest ->. apply stripFromBeginning_begins.
  - apply stripFromBeginning_other.
  - reflexivity.
  - reflexivity.
Qed.

Lemma shortFileName_strips_cwd_witness :
  @Gulp.shortFileName Posix.node "/home/app/src/a.js" = "src/a.js" ∧
  @Gulp.shortFileName Posix.node "/srv/lib/b.js" = "/srv/lib/b.js" ∧
  @Exorcist.shortFileName Posix.node "/home/app/src/a.js" = "src/a.js" ∧
  @Exorcist.shortFileName Posix.node "/srv/lib/b.js" = "/srv/lib/b.js".
Proof.
  assert (¬ begins_with "/srv/lib/b.js" "/home/app/") as Hno.
  { intros [rest Hrest]. discriminate Hrest. }
  destruct (@shortFileName_strips_cwd Posix.node "/home/app/src/a.js")
    as (Hgulp & _ & Hexo & _).
  destruct (@shortFileName_strips_cwd Posix.node "/srv/lib/b.js")
    as (_ & Hgulp' & _ & Hexo' & _).
  split; [|split; [|split]].
  - apply Hgulp. reflexivity.
  - apply Hgulp'. exact Hno.
  - apply Hexo. reflexivity.
  - apply Hexo'. exact Hno.
Defined.

(** ** Running monadic code *)

Section Running.
Context {A B : Type}.
Implicit Types (m : M A) (f : A → M B) (w : World).

Lemma after_nil (r : Run A) : after [] r = r.
Proof. by destruct r. Qed.

Lemma after_after (t1 t2 : list Effect) (r : Run A) :
  after t1 (after t2 r) = after (t1 ++ t2) r.
Proof. unfold after. simpl. by rewrite app_assoc. Qed.

Lemma bind_ok m f w a w' t :
  m w = {| outcome := Ok a; world := w'; trace := t |} →
  (m ≫= f) w = after t (f a w').
Proof. unfold mbind, M_bind. by intros ->. Qed.

Lemma bind_thrown m f w e w' t :
  m w = {| outcome := Thrown e; world := w'; trace := t |} →
  (m ≫= f) w = {| outcome := Thrown e; world := w'; trace := t |}.
Proof. unfold mbind, M_bind. by intros ->. Qed.
End Running.

Lemma bind_emit {B} (e : Effect) (f : unit → M B) (w : World) :
  (emit e ≫= f) w = after [e] (f tt w).
Proof. by apply bind_ok. Qed.

Lemma bind_skip {B} (f : unit → M B) (w : World) :
  (skip ≫= f) w = f tt w.
Proof. erewrite bind_ok; [apply after_nil|done]. Qed.

Lemma bind_skip_r (m : M unit) (w : World) :
  (m ≫= λ _, skip) w = m w.
Proof.
  unfold mbind, M_bind. destruct (m w) as [[[]|e] w' t]; [|done].
  cbn. by rewrite app_nil_r.
Qed.

Lemma bind_throw {A B} (e : JsError) (f : A → M B) (w : World) :
  (throw e ≫= f) w = {| outcome := Thrown e; world := w; trace := [] |}.
Proof. by apply bind_thrown. Qed.

Lemma after_ok {A} (t1 t2 : list Effect) (a : A) (w : World) :
  after t1 {| outcome := Ok a; world := w; trace := t2 |} =
  {| outcome := Ok a; world := w; trace := t1 ++ t2 |}.
Proof. done. Qed.

Lemma after_thrown {A} (t1 t2 : list Effect) (e : JsError) (w : World) :
  after (A := A) t1 {| outcome := Thrown e; world := w; trace := t2 |} =
  {| outcome := Thrown e; world := w; trace := t1 ++ t2 |}.
Proof. done. Qed.

Lemma ret_run {A} (a : A) (w : World) :
  (mret a : M A) w = {| outcome := Ok a; world := w; trace := [] |}.
Proof. done. Qed.

(** Unfolds the plugin's wrappers around [emit] and runs the binds that
    need no case analysis. *)
Ltac run_step :=
  unfold pipe, console_log, console_error;
  repeat first
    [ rewrite bind_emit | rewrite bind_skip | rewrite bind_throw
    | rewrite ret_run
    | rewrite after_after | rewrite after_ok | rewrite after_thrown ].

(** Closes an equation between two runs that differ in the bracketing of
    their traces. *)
Ltac same_trace :=
  f_equal; rewrite ?app_nil_r, <-?app_assoc; cbn [app]; reflexivity.

(** ** The chain assembled by [bundle] in the gulp variant *)

Section GulpBundle.
Context `{Node}.

Lemma stages_app (t1 t2 : list Effect) : stages (t1 ++ t2) = stages t1 ++ stages t2.
Proof. apply omap_app. Qed.

Lemma stages_pipes (chain : list Stage) : stages (map EPipe chain) = chain.
Proof. induction chain as [|s chain IH]; [done|]. cbn. by f_equal. Qed.

Lemma stages_start_line cf : stages (start_line cf) = [].
Proof. unfold start_line. by destruct (multiple cf). Qed.

Lemma pipe_custom_ok (i : nat) (fns : list JsVal) (names : list string) (w : World) :
  mapM factory fns = Some names →
  Gulp.pipe_custom i fns w =
    {| outcome := Ok tt; world := w; trace := map EPipe (map Custom names) |}.
Proof.
  revert i names. induction fns as [|fn fns IH]; intros i names Hnames.
  - by injection Hnames as <-.
  - cbn [mapM] in Hnames. destruct fn; simplify_option_eq.
    cbn [Gulp.pipe_custom]. run_step. by erewrite IH.
Qed.

(** A well-formed configuration: [bundle] returns, leaves the world as it
    was, and has attached exactly the chain of the specification. *)
Lemma bundle_ok (self : Gulp.Plugin) cf bt (w : World) (names : list string) :
  custom_names (gulpPipeCreateFns (Gulp.config_ self)) = Some names →
  Gulp.bundle self cf bt w =
    {| outcome := Ok tt; world := w;
       trace := start_line cf
                ++ [EBundlerBundle; EOn "error" OnBundleError]
                ++ map EPipe (spec_chain self names)
                ++ [EOn "finish" (OnFinish cf bt)] |}.
Proof.
  unfold custom_names, Gulp.bundle, spec_chain, start_line. intros Hnames.
  assert ((if truthy (gulpPipeCreateFns (Gulp.config_ self))
           then match gulpPipeCreateFns (Gulp.config_ self) with
                | JArr fns => Gulp.pipe_custom 0 fns
                | _ => throw Gulp.not_an_array
                end
           else skip) w =
          {| outcome := Ok tt; world := w; trace := map EPipe (map Custom names) |})
    as Hcustom.
  { destruct (truthy _).
    - destruct (gulpPipeCreateFns _); try done. by apply pipe_custom_ok.
    - by injection Hnames as <-. }
  destruct (multiple cf), (sourceMaps _), (optimize _); run_step;
    rewrite (bind_ok _ _ _ _ _ _ Hcustom); run_step;
    unfold emit; run_step; rewrite ?map_app; cbn [map app];
    by rewrite <-?app_assoc.
Qed.

(** A truthy value that is not an array: [bundle] throws after the
    bundler was started and the leading stages were attached. *)
Lemma bundle_not_array (self : Gulp.Plugin) cf bt (w : World) :
  truthy (gulpPipeCreateFns (Gulp.config_ self)) = true →
  instanceof_Array (gulpPipeCreateFns (Gulp.config_ self)) = false →
  Gulp.bundle self cf bt w =
    {| outcome := Thrown Gulp.not_an_array; world := w;
       trace := start_line cf
                ++ [EBundlerBundle; EOn "error" OnBundleError;
                    EPipe (Source (Gulp.entryFile_ self)); EPipe Buffer]
                ++ (if sourceMaps (Gulp.brunchConfig_ self)
                    then [EPipe (SourcemapsInit true)] else []) |}.
Proof.
  unfold Gulp.bundle, start_line. intros -> Harr.
  assert (match gulpPipeCreateFns (Gulp.config_ self) with
          | JArr fns => Gulp.pipe_custom 0 fns
          | _ => throw Gulp.not_an_array
          end = throw Gulp.not_an_array) as ->.
  { by destruct (gulpPipeCreateFns _). }
  by destruct (multiple cf), (sourceMaps _); run_step.
Qed.
End GulpBundle.

(** ** The options handed to [browserify] *)

Lemma copy_fold (src b : gmap string JsVal) :
  map_fold (λ key v acc, <[key := v]> acc) b src = src ∪ b.
Proof.
  apply (map_fold_weak_ind (λ r m, r = m ∪ b)).
  - cbv beta. by rewrite (left_id_L ∅ (∪)).
  - intros k v m r _ ->. by rewrite insert_union_l.
Qed.

Lemma copy_keys_run (cfg : BrunchConfig) (b : gmap string JsVal) (w : World) :
  copy_keys (browserifyOptions (anotherBrowserify cfg)) b w =
    {| outcome := Ok (user_options cfg (heap w) ∪ b); world := w; trace := [] |}.
Proof.
  unfold copy_keys, user_options. destruct (browserifyOptions _); f_equal.
  - by rewrite copy_fold.
  - by rewrite (left_id_L ∅ (∪)).
Qed.

Lemma alloc_run (props : gmap string JsVal) (w : World) :
  alloc props w =
    {| outcome := Ok (fresh (dom (heap w)));
       world := {| heap := <[fresh (dom (heap w)) := props]> (heap w);
                   mtimes := mtimes w; clock := clock w |};
       trace := [] |}.
Proof. done. Qed.

Lemma lookup_default_bOptions (k : string) :
  k ≠ "extensions" → default_bOptions !! k = None.
Proof. intros Hk. unfold default_bOptions. by rewrite lookup_singleton_ne. Qed.

(** The merge of lines 64-78 (and 230-244), key by key. *)
Lemma make_bOptions_run (cfg : BrunchConfig) (watching : bool) (w : World) :
  ∃ bOptions w',
    make_bOptions cfg watching w = {| outcome := Ok bOptions; world := w'; trace := [] |} ∧
    mtimes w' = mtimes w ∧ clock w' = clock w ∧
    (∀ l, l ∈ dom (heap w) → heap w' !! l = heap w !! l) ∧
    (∀ k, k ≠ "debug" → k ≠ "cache" → k ≠ "packageCache" →
       bOptions !! k = (user_options cfg (heap w) ∪ default_bOptions) !! k) ∧
    bOptions !! "debug" =
      (if sourceMaps cfg then Some (JBool true) else user_options cfg (heap w) !! "debug") ∧
    (if watching then
       (∃ c pc, bOptions !! "cache" = Some (JObj c) ∧
          bOptions !! "packageCache" = Some (JObj pc) ∧ c ≠ pc ∧
          fresh_empty (heap w) (heap w') c ∧ fresh_empty (heap w) (heap w') pc)
     else
       (w' = w ∧
        bOptions !! "cache" = user_options cfg (heap w) !! "cache" ∧
        bOptions !! "packageCache" = user_options cfg (heap w) !! "packageCache")).
Proof.
  unfold make_bOptions.
  erewrite bind_ok; [|apply copy_keys_run].
  set (user := user_options cfg (heap w)).
  set (b := if sourceMaps cfg then _ else _).
  assert (∀ k, k ≠ "debug" → b !! k = (user ∪ default_bOptions) !! k) as Hb.
  { intros k Hk. subst b. destruct (sourceMaps cfg); [by rewrite lookup_insert_ne|done]. }
  assert (b !! "debug" = if sourceMaps cfg then Some (JBool true) else user !! "debug") as Hdebug.
  { subst b. destruct (sourceMaps cfg); [by rewrite lookup_insert_eq|].
    rewrite lookup_union, lookup_default_bOptions; [|done]. by destruct (user !! "debug"). }
  destruct watching.
  - erewrite bind_ok; [|apply alloc_run]. cbv zeta.
    erewrite bind_ok; [|apply alloc_run].
    set (c := fresh (dom (heap w))). simpl.
    set (pc := fresh (dom (<[c := ∅]> (heap w)))).
    assert (c ∉ dom (heap w)) as Hc by apply is_fresh.
    assert (pc ∉ dom (<[c := ∅]> (heap w))) as Hpc by apply is_fresh.
    rewrite dom_insert_L in Hpc.
    assert (pc ≠ c) by set_solver. assert (pc ∉ dom (heap w)) by set_solver.
    eexists _, _. split; [reflexivity|]. simpl.
    split_and!; try done.
    + intros l Hl. rewrite !lookup_insert_ne; [done|set_solver..].
    + intros k ???. rewrite !lookup_insert_ne; auto.
    + rewrite !lookup_insert_ne; done.
    + exists c, pc. unfold fresh_empty. split_and!; try done.
      * rewrite lookup_insert_ne; [|done]. by rewrite lookup_insert_eq.
      * by rewrite lookup_insert_eq.
      * rewrite lookup_insert_ne; [|done]. by rewrite lookup_insert_eq.
      * by rewrite lookup_insert_eq.
  - eexists _, _. split; [by rewrite after_nil|]. split_and!; try done.
    + intros k ? _ _. by apply Hb.
    + rewrite Hb; [|done]. rewrite lookup_union, lookup_default_bOptions; [|done].
      by destruct (user !! "cache").
    + rewrite Hb; [|done]. rewrite lookup_union, lookup_default_bOptions; [|done].
      by destruct (user !! "packageCache").
Qed.

Lemma forEach_emit {A} (f : A → Effect) (l : list A) (w : World) :
  forEach l (λ x, emit (f x)) w = {| outcome := Ok tt; world := w; trace := map f l |}.
Proof.
  induction l as [|x l IH]; [done|].
  cbn [forEach]. rewrite bind_emit, IH. done.
Qed.

(** ** The constructors *)

Lemma props_lookup_dom (h : gmap loc (gmap string JsVal)) (l : loc) (k : string) (v : JsVal) :
  props_of h l !! k = Some v → l ∈ dom h.
Proof.
  unfold props_of. intros Hv. apply elem_of_dom.
  destruct (h !! l); [done|]. simpl in Hv. by rewrite lookup_empty in Hv.
Qed.

Section Init.
Context `{Node}.

(** Lines 42-46: [uglifyOptions_] and the compressor workaround, followed
    by any continuation [k]. *)
Lemma uglify_setup_run (cfg : BrunchConfig) (w : World) :
  ∃ l w2,
    mtimes w2 = mtimes w ∧ clock w2 = clock w ∧
    dom (heap w) ⊆ dom (heap w2) ∧
    (∀ l' k, k ≠ "compress" → props_of (heap w2) l' !! k = props_of (heap w) l' !! k) ∧
    (∀ l' v, props_of (heap w) l' !! "compress" = Some v →
             props_of (heap w2) l' !! "compress" = Some v) ∧
    (sourceMaps cfg = true →
       l ∈ dom (heap w2) ∧
       props_of (heap w2) l !! "compress" =
         Some (default (JBool false) (host_compress cfg (heap w)))) ∧
    ∀ B (k : loc → M B),
      (uglifyOptions ← match uglifyOptions (anotherBrowserify cfg) with
                       | Some l => mret l
                       | None => alloc ∅
                       end;
       (if sourceMaps cfg then
          present ← has_property uglifyOptions "compress";
          if negb present then set_property uglifyOptions "compress" (JBool false) else skip
        else skip);;
       k uglifyOptions) w = k l w2.
Proof.
  unfold host_compress.
  destruct (uglifyOptions (anotherBrowserify cfg)) as [l0|] eqn:Hhost.
  - (* the host's object *)
    destruct (sourceMaps cfg).
    + destruct (props_of (heap w) l0 !! "compress") as [v|] eqn:Hc.
      * exists l0, w. split_and!; try done.
        { intros _. split; [|done]. by eapply props_lookup_dom. }
        intros B k. erewrite bind_ok; [|done]. rewrite after_nil.
        erewrite bind_ok; [|erewrite bind_ok; [|done]; rewrite after_nil; simpl;
          rewrite Hc; rewrite bool_decide_true by done; done].
        by rewrite after_nil.
      * exists l0, {| heap := <[l0 := <["compress" := JBool false]> (props_of (heap w) l0)]> (heap w);
                      mtimes := mtimes w; clock := clock w |}.
        simpl. split_and!; try done.
        { rewrite dom_insert_L. set_solver. }
        { intros l' k Hk. unfold props_of at 1. destruct (decide (l' = l0)) as [->|Hne].
          - rewrite lookup_insert_eq. simpl. by rewrite lookup_insert_ne.
          - by rewrite lookup_insert_ne. }
        { intros l' v Hv. unfold props_of at 1. destruct (decide (l' = l0)) as [->|Hne].
          - congruence.
          - by rewrite lookup_insert_ne. }
        { intros _. split; [rewrite dom_insert_L; set_solver|].
          unfold props_of at 1. rewrite lookup_insert_eq. simpl. by rewrite lookup_insert_eq. }
        intros B k. erewrite bind_ok; [|done]. rewrite after_nil.
        erewrite bind_ok; [|erewrite bind_ok; [|done]; rewrite after_nil; simpl;
          rewrite Hc; rewrite bool_decide_false by (by intros [? ?]); done].
        by rewrite after_nil.
    + exists l0, w. split_and!; try done.
      intros B k. erewrite bind_ok; [|done]. rewrite after_nil. by rewrite bind_skip.
  - (* a new object *)
    set (l := fresh (dom (heap w))).
    assert (l ∉ dom (heap w)) as Hfresh by apply is_fresh.
    assert (heap w !! l = None) as Hnone by by apply not_elem_of_dom.
    assert (props_of (heap w) l = ∅) as Hempty by (unfold props_of; by rewrite Hnone).
    destruct (sourceMaps cfg).
    + exists l, {| heap := <[l := <["compress" := JBool false]> ∅]> (<[l := ∅]> (heap w));
                   mtimes := mtimes w; clock := clock w |}.
      simpl. split_and!; try done.
      { rewrite !dom_insert_L. set_solver. }
      { intros l' k Hk. unfold props_of at 1. destruct (decide (l' = l)) as [->|Hne].
        - rewrite lookup_insert_eq. simpl. rewrite lookup_insert_ne by done.
          by rewrite Hempty.
        - by rewrite !lookup_insert_ne. }
      { intros l' v Hv. unfold props_of at 1. destruct (decide (l' = l)) as [->|Hne].
        - by rewrite Hempty, lookup_empty in Hv.
        - by rewrite !lookup_insert_ne. }
      { intros _. split; [rewrite !dom_insert_L; set_solver|].
        unfold props_of at 1. rewrite lookup_insert_eq. simpl. by rewrite lookup_insert_eq. }
      intros B k. erewrite bind_ok; [|apply alloc_run]. rewrite after_nil. fold l.
      erewrite bind_ok; [|erewrite bind_ok; [|done]; rewrite after_nil; simpl;
        unfold props_of; rewrite lookup_insert_eq; simpl; rewrite lookup_empty;
        rewrite bool_decide_false by (by intros [? ?]); done].
      rewrite after_nil. simpl. unfold props_of. by rewrite lookup_insert_eq.
    + exists l, {| heap := <[l := ∅]> (heap w); mtimes := mtimes w; clock := clock w |}.
      simpl. split_and!; try done.
      { rewrite dom_insert_L. set_solver. }
      { intros l' k _. unfold props_of at 1. destruct (decide (l' = l)) as [->|Hne].
        - rewrite lookup_insert_eq. simpl. by rewrite Hempty.
        - by rewrite lookup_insert_ne. }
      { intros l' v Hv. unfold props_of at 1. destruct (decide (l' = l)) as [->|Hne].
        - by rewrite Hempty, lookup_empty in Hv.
        - by rewrite lookup_insert_ne. }
      intros B k. erewrite bind_ok; [|apply alloc_run]. rewrite after_nil. fold l.
      by rewrite bind_skip.
Qed.

(** The gulp constructor up to its final [this.bundle()]. *)
Lemma gulp_init_run (cfg : BrunchConfig) (argv : list string) (w : World) :
  ∃ l w2,
    mtimes w2 = mtimes w ∧ clock w2 = clock w ∧
    dom (heap w) ⊆ dom (heap w2) ∧
    (∀ l' k, k ≠ "compress" → props_of (heap w2) l' !! k = props_of (heap w) l' !! k) ∧
    (∀ l' v, props_of (heap w) l' !! "compress" = Some v →
             props_of (heap w2) l' !! "compress" = Some v) ∧
    (sourceMaps cfg = true →
       l ∈ dom (heap w2) ∧
       props_of (heap w2) l !! "compress" =
         Some (default (JBool false) (host_compress cfg (heap w)))) ∧
    ∀ bOptions w',
      make_bOptions cfg (scan_argv argv) w2 =
        {| outcome := Ok bOptions; world := w'; trace := [] |} →
      Gulp.init cfg argv w =
        {| outcome := Ok
             {| Gulp.brunchConfig_ := cfg;
                Gulp.entryFile_ := path_resolve1 (entry (anotherBrowserify cfg));
                Gulp.gulpDestDir_ := path_resolve1 (paths_public cfg);
                Gulp.outFile_ :=
                  path_resolve2 (paths_public cfg) (outFile (anotherBrowserify cfg));
                Gulp.uglifyOptions_ := l;
                Gulp.gulpRenameOptions_ :=
                  {| dirname := path_dirname (outFile (anotherBrowserify cfg));
                     basename := path_basename (outFile (anotherBrowserify cfg))
                                   (path_extname (outFile (anotherBrowserify cfg)));
                     extname := path_extname (outFile (anotherBrowserify cfg)) |};
                Gulp.watching_ := scan_argv argv |};
           world := w';
           trace := wiring cfg argv bOptions [] |}.
Proof.
  destruct (uglify_setup_run cfg w) as (l & w2 & ? & ? & ? & ? & ? & ? & Hk).
  exists l, w2. split_and!; try done.
  intros bOptions w' Hb. unfold Gulp.init, wiring. cbv zeta. rewrite Hk.
  erewrite bind_ok; [|exact Hb]. rewrite after_nil. run_step.
  destruct (scan_argv argv), (transforms (anotherBrowserify cfg)) as [trs|]; run_step;
    try (erewrite bind_ok; [|apply forEach_emit]); run_step; unfold emit; run_step;
    cbn [default map app]; same_trace.
Qed.

(** The exorcist constructor up to its final [this.bundle()]. *)
Lemma exorcist_init_run (cfg : BrunchConfig) (argv : list string) (w : World) :
  ∀ bOptions w',
    make_bOptions cfg (scan_argv argv) w =
      {| outcome := Ok bOptions; world := w'; trace := [] |} →
    Exorcist.init cfg argv w =
      {| outcome := Ok
           {| Exorcist.brunchConfig_ := cfg;
              Exorcist.outFile_ :=
                path_resolve2 (paths_public cfg) (outFile (anotherBrowserify cfg));
              Exorcist.outMapFile_ :=
                path_resolve2 (paths_public cfg) (mapFile (anotherBrowserify cfg));
              Exorcist.watching_ := scan_argv argv |};
         world := w';
         trace := wiring cfg argv bOptions
                    (if optimize cfg then [ETransform (JFun "uglifyify") true] else []) |}.
Proof.
  intros bOptions w' Hb. unfold Exorcist.init, wiring. cbv zeta.
  erewrite bind_ok; [|exact Hb]. rewrite after_nil. run_step.
  destruct (scan_argv argv), (transforms (anotherBrowserify cfg)) as [trs|],
    (optimize cfg); run_step;
    try (erewrite bind_ok; [|apply forEach_emit]); run_step; unfold emit; run_step;
    cbn [default map app]; same_trace.
Qed.

(** [bundle] in the exorcist variant always returns. *)
Lemma exorcist_bundle_run (self : Exorcist.Plugin) cf bt (w : World) :
  Exorcist.bundle self cf bt w =
    {| outcome := Ok tt; world := w;
       trace := start_line cf
                ++ [EBundlerBundle; EOn "error" OnBundleError]
                ++ map EPipe ((if sourceMaps (Exorcist.brunchConfig_ self)
                               then [Exorcist (Exorcist.outMapFile_ self)] else [])
                              ++ [WriteStream (Exorcist.outFile_ self)])
                ++ [EOn "finish" (OnFinish cf bt)] |}.
Proof.
  unfold Exorcist.bundle, start_line.
  by destruct (multiple cf), (sourceMaps _); run_step; unfold emit; run_step.
Qed.
End Init.

(** ** Sanity checks of the model on the sample inputs *)

Example sample_gulp_is_constructed (sm opt : bool) (fns : JsVal) :
  outcome (@Gulp.init Posix.node (Sample.config sm opt fns) ["node"; "brunch"; "build"]
             Sample.world)
  = Ok (Sample.gulp sm opt fns).
Proof. destruct sm, opt; vm_compute; reflexivity. Qed.

Example sample_exorcist_is_constructed (sm opt : bool) (fns : JsVal) :
  outcome (@Exorcist.init Posix.node (Sample.config sm opt fns) ["node"; "brunch"; "build"]
             Sample.world)
  = Ok (Sample.exorcist sm opt fns).
Proof. destruct sm, opt; vm_compute; reflexivity. Qed.

(** Constructing the gulp plugin in watch mode: the bundler is set up and
    the initial build attaches the whole chain. *)
Example sample_construction :
  let r := @Gulp.AnotherBrowserifyBrunchPlugin Posix.node
             (Sample.config false true (JArr [JFun "gulp-header"]))
             ["node"; "brunch"; "watch"] (0, 0) Sample.world in
  watchify_calls (trace r) = 1%nat ∧
  transform_calls (trace r) = [(JStr "babelify", false)] ∧
  bundler_runs (trace r) = 1%nat ∧
  stages (trace r) =
    [Source "/home/app/app/main.js"; Buffer; Custom "gulp-header"; Uglify 1%positive;
     Rename {| dirname := "js"; basename := "app.min"; extname := ".js" |};
     Dest "/home/app/public"] ∧
  listeners "finish" (trace r) = [OnFinish None (0, 0)].
Proof. vm_compute. done. Qed.

(** Constructing it with a malformed element: the initial build throws
    after attaching the stages that precede the element. *)
Example sample_construction_throws :
  let r := @Gulp.AnotherBrowserifyBrunchPlugin Posix.node
             (Sample.config false true (JArr [JFun "gulp-header"; JStr "gulp-footer"]))
             ["node"; "brunch"; "build"] (0, 0) Sample.world in
  outcome r = Thrown (Error "AnotherBrowserify: 'gulpPipeCreateFns[1]' must be a function") ∧
  stages (trace r) = [Source "/home/app/app/main.js"; Buffer; Custom "gulp-header"] ∧
  listeners "finish" (trace r) = [].
Proof. vm_compute. done. Qed.

Example sample_elapsed : elapsed_ms (1, 999000000) (3, 5) = 1001.
Proof. reflexivity. Qed.

(** ** Validation of [gulpPipeCreateFns] *)

(** C1, as amended.  When [gulpPipeCreateFns] is a truthy value that is not
    an array, [bundle] throws the configuration error; by then the
    bundler's [bundle()] has been called once and the source, buffer and
    (with source maps) source-map-init stages are attached, while no later
    stage is attached and no [finish] listener is registered.  A falsy
    value is treated as absent: [bundle] returns. *)
Theorem bundle_rejects_truthy_non_array `{Node} (self : Gulp.Plugin)
    (changedFiles : option (list string)) (beginTime : HrTime) (w : World) :
  let fns := gulpPipeCreateFns (Gulp.config_ self) in
  let r := Gulp.bundle self changedFiles beginTime w in
  (truthy fns = true → instanceof_Array fns = false →
     outcome r = Thrown Gulp.not_an_array ∧
     world r = w ∧
     bundler_runs (trace r) = 1%nat ∧
     stages (trace r) =
       [Source (Gulp.entryFile_ self); Buffer]
       ++ (if sourceMaps (Gulp.brunchConfig_ self) then [SourcemapsInit true] else []) ∧
     listeners "finish" (trace r) = []) ∧
  (truthy fns = false → outcome r = Ok tt).
Proof.
  intros fns r. split.
  - intros Htruthy Harr. subst r. rewrite (bundle_not_array _ _ _ _ Htruthy Harr).
    unfold start_line. by destruct (multiple changedFiles), (sourceMaps _).
  - intros Hfalsy. subst r. erewrite (bundle_ok _ _ _ _ []); [done|].
    unfold custom_names. fold fns. by rewrite Hfalsy.
Qed.

Lemma bundle_rejects_truthy_non_array_witness :
  outcome (@Gulp.bundle Posix.node (Sample.gulp true true (JStr "gulp-concat")) None (0, 0)
             Sample.world) = Thrown (@Gulp.not_an_array) ∧
  outcome (@Gulp.bundle Posix.node (Sample.gulp true true (JStr "")) None (0, 0)
             Sample.world) = Ok tt.
Proof.
  split.
  - apply (@bundle_rejects_truthy_non_array Posix.node
             (Sample.gulp true true (JStr "gulp-concat")) None (0, 0) Sample.world);
      reflexivity.
  - apply (@bundle_rejects_truthy_non_array Posix.node
             (Sample.gulp true true (JStr "")) None (0, 0) Sample.world);
      reflexivity.
Defined.

(** C1, as stated, fails.  With the non-array value ["gulp-concat"] the
    error is thrown only after the bundler's [bundle()] was called and two
    stages were attached; with the non-array value [0] nothing is thrown. *)
Lemma fail_fast_counterexample :
  let late := @Gulp.bundle Posix.node (Sample.gulp false false (JStr "gulp-concat"))
                None (0, 0) Sample.world in
  let silent := @Gulp.bundle Posix.node (Sample.gulp false false (JNum 0))
                  None (0, 0) Sample.world in
  (instanceof_Array (JStr "gulp-concat") = false ∧
   outcome late = Thrown (@Gulp.not_an_array) ∧
   bundler_runs (trace late) = 1%nat ∧
   stages (trace late) = [Source "/home/app/app/main.js"; Buffer]) ∧
  (instanceof_Array (JNum 0) = false ∧
   outcome silent = Ok tt).
Proof. vm_compute. done. Qed.

(** ** The order of the stages *)

Lemma stages_bundle_ok `{Node} (self : Gulp.Plugin) cf bt (w : World) (names : list string) :
  custom_names (gulpPipeCreateFns (Gulp.config_ self)) = Some names →
  stages (trace (Gulp.bundle self cf bt w)) = spec_chain self names.
Proof.
  intros Hnames. rewrite (bundle_ok _ _ _ _ _ Hnames). cbn [trace].
  rewrite !stages_app, stages_start_line, stages_pipes. cbn [app stages omap].
  by rewrite app_nil_r.
Qed.

Lemma transform_calls_wiring `{Node} cfg argv bOptions (minify : list Effect) :
  transform_calls (wiring cfg argv bOptions minify) =
    map (λ tr, (tr, false)) (default [] (transforms (anotherBrowserify cfg)))
    ++ transform_calls minify.
Proof.
  unfold wiring, transform_calls. rewrite !omap_app.
  assert (∀ trs : list JsVal,
            omap (λ e, match e with ETransform tr g => Some (tr, g) | _ => None end)
              (map (λ tr, ETransform tr false) trs) = map (λ tr, (tr, false)) trs) as ->.
  { induction trs as [|tr trs IH]; [done|]. cbn. by f_equal. }
  destruct (scan_argv argv); cbn; by rewrite app_nil_r.
Qed.

(** C2.  Gulp variant: with the optimize flag set and a well-formed
    [gulpPipeCreateFns], every [bundle] run returns and attaches the
    minifier directly after the user's stages, taken in the order
    supplied, and directly before the rename stage.  Exorcist variant:
    there are no user stages and no rename stage; the minifier is
    registered on the bundler as the last transform, globally. *)
Theorem minifier_after_custom_before_rename `{Node} :
  (∀ (self : Gulp.Plugin) changedFiles beginTime (w : World) (names : list string),
     optimize (Gulp.brunchConfig_ self) = true →
     custom_names (gulpPipeCreateFns (Gulp.config_ self)) = Some names →
     let r := Gulp.bundle self changedFiles beginTime w in
     outcome r = Ok tt ∧
     stages (trace r) =
       ([Source (Gulp.entryFile_ self); Buffer]
        ++ (if sourceMaps (Gulp.brunchConfig_ self) then [SourcemapsInit true] else []))
       ++ map Custom names
       ++ [Uglify (Gulp.uglifyOptions_ self); Rename (Gulp.gulpRenameOptions_ self)]
       ++ (if sourceMaps (Gulp.brunchConfig_ self) then [SourcemapsWrite "."] else [])
       ++ [Dest (Gulp.gulpDestDir_ self)]) ∧
  (∀ (cfg : BrunchConfig) (argv : list string) (w : World),
     optimize cfg = true →
     transform_calls (trace (Exorcist.init cfg argv w)) =
       map (λ tr, (tr, false)) (default [] (transforms (anotherBrowserify cfg)))
       ++ [(JFun "uglifyify", true)]).
Proof.
  split.
  - intros self cf bt w names Hopt Hnames r. subst r. split.
    + by rewrite (bundle_ok _ _ _ _ _ Hnames).
    + rewrite (stages_bundle_ok _ _ _ _ _ Hnames). unfold spec_chain.
      rewrite Hopt. by rewrite <-!app_assoc.
  - intros cfg argv w Hopt.
    destruct (make_bOptions_run cfg (scan_argv argv) w) as (b & w' & Hb & _).
    rewrite (exorcist_init_run _ _ _ _ _ Hb). cbn [trace].
    by rewrite transform_calls_wiring, Hopt.
Qed.

Lemma minifier_after_custom_before_rename_witness :
  stages (trace (@Gulp.bundle Posix.node
                   (Sample.gulp false true (JArr [JFun "gulp-ngannotate"; JFun "gulp-header"]))
                   None (0, 0) Sample.world)) =
    [Source "/home/app/app/main.js"; Buffer;
     Custom "gulp-ngannotate"; Custom "gulp-header";
     Uglify 1%positive;
     Rename {| dirname := "js"; basename := "app.min"; extname := ".js" |};
     Dest "/home/app/public"] ∧
  transform_calls (trace (@Exorcist.init Posix.node (Sample.config false true JUndefined)
                            ["node"; "brunch"; "build"] Sample.world)) =
    [(JStr "babelify", false); (JFun "uglifyify", true)].
Proof.
  split.
  - apply (proj1 (@minifier_after_custom_before_rename Posix.node)
             (Sample.gulp false true (JArr [JFun "gulp-ngannotate"; JFun "gulp-header"]))
             None (0, 0) Sample.world ["gulp-ngannotate"; "gulp-header"]);
      reflexivity.
  - apply (proj2 (@minifier_after_custom_before_rename Posix.node)
             (Sample.config false true JUndefined) ["node"; "brunch"; "build"] Sample.world).
    reflexivity.
Defined.

(** ** The plain build *)

(** C3.  With source maps and optimize disabled and no user stages, the
    constructed plugin's [bundle] attaches exactly source, buffer, rename
    and destination; draining the bundler's raw output through that chain
    writes one file, under the public directory, at the configured
    directory, base name and extension, whose contents are the raw output
    byte for byte. *)
Theorem plain_build_writes_raw_output `{Node} (cfg : BrunchConfig) (argv : list string)
    (w : World) changedFiles beginTime (opaque : Stage → Flow → Flow) (raw : string) :
  sourceMaps cfg = false →
  optimize cfg = false →
  custom_names (gulpPipeCreateFns (anotherBrowserify cfg)) = Some [] →
  let out := outFile (anotherBrowserify cfg) in
  let options := {| dirname := path_dirname out;
                    basename := path_basename out (path_extname out);
                    extname := path_extname out |} in
  ∃ self w',
    outcome (Gulp.init cfg argv w) = Ok self ∧
    world (Gulp.init cfg argv w) = w' ∧
    outcome (Gulp.bundle self changedFiles beginTime w') = Ok tt ∧
    stages (trace (Gulp.bundle self changedFiles beginTime w')) =
      [Source (path_resolve1 (entry (anotherBrowserify cfg))); Buffer;
       Rename options; Dest (path_resolve1 (paths_public cfg))] ∧
    drain opaque (stages (trace (Gulp.bundle self changedFiles beginTime w'))) (Text raw) =
      [(path_resolve2 (path_resolve1 (paths_public cfg))
          (path_join (dirname options) (basename options +:+ extname options)),
        raw)].
Proof.
  intros Hsm Hopt Hnames out options.
  destruct (gulp_init_run cfg argv w) as (l & w2 & _ & _ & _ & _ & _ & _ & Hinit).
  destruct (make_bOptions_run cfg (scan_argv argv) w2) as (b & w' & Hb & _).
  specialize (Hinit _ _ Hb). rewrite Hinit. cbn [outcome world].
  eexists _, w'. split; [reflexivity|]. split; [reflexivity|].
  split; [by erewrite bundle_ok|].
  erewrite stages_bundle_ok by exact Hnames.
  unfold spec_chain. cbn [Gulp.brunchConfig_ Gulp.entryFile_ Gulp.gulpRenameOptions_
                           Gulp.gulpDestDir_ Gulp.uglifyOptions_].
  rewrite Hsm, Hopt. by cbn.
Qed.

Lemma plain_build_writes_raw_output_witness :
  drain (H := Posix.node) (λ _ flow, flow)
    (stages (trace (@Gulp.bundle Posix.node (Sample.gulp false false (JArr []))
                      (Some ["/home/app/app/main.js"]) (0, 0) Sample.world)))
    (Text "var a = 1;")
  = [("/home/app/public/js/app.min.js", "var a = 1;")].
Proof.
  destruct (@plain_build_writes_raw_output Posix.node (Sample.config false false (JArr []))
              ["node"; "brunch"; "build"] Sample.world (Some ["/home/app/app/main.js"]) (0, 0)
              (λ _ flow, flow) "var a = 1;" eq_refl eq_refl eq_refl)
    as (self & w' & Hself & Hw' & _ & _ & Hdrain).
  vm_compute in Hself. injection Hself as <-.
  vm_compute in Hw'. subst w'.
  exact Hdrain.
Defined.

(** ** The compressor workaround *)

(** C4.  Gulp variant (the one that disables the compressor): with source
    maps and optimize enabled, the options object handed to the minifier
    by every [bundle] run of the constructed plugin has [compress] equal
    to the host's value when the host's [uglifyOptions] contains a
    [compress] key, and [false] otherwise. *)
Theorem compress_false_unless_host_sets_it `{Node} (cfg : BrunchConfig) (argv : list string)
    (w : World) (names : list string) changedFiles beginTime :
  sourceMaps cfg = true →
  optimize cfg = true →
  custom_names (gulpPipeCreateFns (anotherBrowserify cfg)) = Some names →
  ∃ self w',
    outcome (Gulp.init cfg argv w) = Ok self ∧
    world (Gulp.init cfg argv w) = w' ∧
    let r := Gulp.bundle self changedFiles beginTime w' in
    outcome r = Ok tt ∧
    world r = w' ∧
    stages (trace r) =
      [Source (Gulp.entryFile_ self); Buffer; SourcemapsInit true]
      ++ map Custom names
      ++ [Uglify (Gulp.uglifyOptions_ self); Rename (Gulp.gulpRenameOptions_ self);
          SourcemapsWrite "."; Dest (Gulp.gulpDestDir_ self)] ∧
    get_property (heap w') (Gulp.uglifyOptions_ self) "compress" =
      match host_compress cfg (heap w) with
      | Some v => v
      | None => JBool false
      end.
Proof.
  intros Hsm Hopt Hnames.
  destruct (gulp_init_run cfg argv w) as (l & w2 & _ & _ & _ & _ & _ & Hl & Hinit).
  destruct (Hl Hsm) as [Hdom Hcompress].
  destruct (make_bOptions_run cfg (scan_argv argv) w2) as (b & w' & Hb & _ & _ & Hkeep & _).
  specialize (Hinit _ _ Hb). rewrite Hinit. cbn [outcome world].
  eexists _, w'. split; [reflexivity|]. split; [reflexivity|].
  cbv zeta. rewrite (bundle_ok _ _ _ _ names) by exact Hnames. cbn [outcome world trace].
  split; [done|]. split; [done|]. split.
  - rewrite !stages_app, stages_start_line, stages_pipes. cbn [app stages omap].
    unfold spec_chain. cbn [Gulp.brunchConfig_]. rewrite Hsm, Hopt.
    by rewrite app_nil_r.
  - cbn [Gulp.uglifyOptions_]. unfold get_property, props_of in *.
    rewrite (Hkeep _ Hdom), Hcompress. cbn. by destruct (host_compress cfg (heap w)).
Qed.

Lemma compress_false_unless_host_sets_it_witness :
  get_property
    (heap (world (@Gulp.init Posix.node (Sample.config_plain true true JUndefined)
                    ["node"; "brunch"; "build"] Sample.world)))
    3%positive "compress" = JBool false ∧
  get_property
    (heap (world (@Gulp.init Posix.node (Sample.config true true JUndefined)
                    ["node"; "brunch"; "build"] Sample.world)))
    1%positive "compress" = JBool true.
Proof.
  split.
  - destruct (@compress_false_unless_host_sets_it Posix.node
                (Sample.config_plain true true JUndefined) ["node"; "brunch"; "build"]
                Sample.world [] None (0, 0) eq_refl eq_refl eq_refl)
      as (self & w' & Hself & Hw' & _ & _ & _ & Hcompress).
    vm_compute in Hself. injection Hself as <-. subst w'. exact Hcompress.
  - destruct (@compress_false_unless_host_sets_it Posix.node
                (Sample.config true true JUndefined) ["node"; "brunch"; "build"]
                Sample.world [] None (0, 0) eq_refl eq_refl eq_refl)
      as (self & w' & Hself & Hw' & _ & _ & _ & Hcompress).
    vm_compute in Hself. injection Hself as <-. subst w'. exact Hcompress.
Defined.

(** ** Source maps, watch mode and the bundler options *)

Lemma scan_argv_watch (argv : list string) : scan_argv argv = true ↔ "watch" ∈ argv.
Proof.
  induction argv as [|arg argv IH]; simpl.
  - split; [done|]. by intros ?%elem_of_nil.
  - rewrite elem_of_cons. destruct (String.eqb_spec arg "watch") as [->|Hne].
    + split; [by left|done].
    + rewrite IH. split; [by right|]. by intros [?|?].
Qed.

Lemma scan_argv_no_watch (argv : list string) : scan_argv argv = false ↔ "watch" ∉ argv.
Proof. rewrite <-scan_argv_watch. by destruct (scan_argv argv). Qed.

Lemma browserify_calls_wiring `{Node} cfg argv bOptions (minify : list Effect) :
  browserify_calls minify = [] →
  browserify_calls (wiring cfg argv bOptions minify) = [bOptions].
Proof.
  intros Hminify. unfold wiring, browserify_calls in *. rewrite !omap_app, Hminify.
  assert (∀ trs : list JsVal,
            omap (λ e, match e with EBrowserify b => Some b | _ => None end)
              (map (λ tr, ETransform tr false) trs) = []) as ->.
  { induction trs as [|tr trs IH]; [done|]. by cbn. }
  by destruct (scan_argv argv).
Qed.

Lemma watchify_calls_wiring `{Node} cfg argv bOptions (minify : list Effect) :
  watchify_calls minify = 0%nat →
  watchify_calls (wiring cfg argv bOptions minify) = if scan_argv argv then 1%nat else 0%nat.
Proof.
  unfold wiring, watchify_calls. rewrite !omap_app, !length_app. intros ->.
  assert (∀ trs : list JsVal,
            omap (λ e, match e with EWatchify => Some tt | _ => None end)
              (map (λ tr, ETransform tr false) trs) = []) as ->.
  { induction trs as [|tr trs IH]; [done|]. by cbn. }
  by destruct (scan_argv argv).
Qed.

Lemma minify_has_no_browserify (b : bool) :
  browserify_calls (if b then [ETransform (JFun "uglifyify") true] else []) = [].
Proof. by destruct b. Qed.

Lemma minify_has_no_watchify (b : bool) :
  watchify_calls (if b then [ETransform (JFun "uglifyify") true] else []) = 0%nat.
Proof. by destruct b. Qed.

(** C5.  With the source-maps flag enabled, in both variants the options
    object handed to [browserify] has [debug] set to [true], whatever the
    host's [browserifyOptions] say, and every [bundle] run attaches the
    stage that emits the source map next to the bundle: in the gulp
    variant source-map tracking is initialised before the user's stages
    and the map is written to the bundle's own directory between rename
    and destination; in the exorcist variant the map is extracted to the
    configured map file before the bundle is written. *)
Theorem source_maps_force_debug_and_emit_map `{Node} (cfg : BrunchConfig)
    (argv : list string) (w : World) :
  sourceMaps cfg = true →
  (∃ self w' bOptions,
     outcome (Gulp.init cfg argv w) = Ok self ∧
     world (Gulp.init cfg argv w) = w' ∧
     browserify_calls (trace (Gulp.init cfg argv w)) = [bOptions] ∧
     bOptions !! "debug" = Some (JBool true) ∧
     ∀ names changedFiles beginTime,
       custom_names (gulpPipeCreateFns (anotherBrowserify cfg)) = Some names →
       outcome (Gulp.bundle self changedFiles beginTime w') = Ok tt ∧
       stages (trace (Gulp.bundle self changedFiles beginTime w')) =
         [Source (Gulp.entryFile_ self); Buffer; SourcemapsInit true]
         ++ map Custom names
         ++ (if optimize cfg then [Uglify (Gulp.uglifyOptions_ self)] else [])
         ++ [Rename (Gulp.gulpRenameOptions_ self); SourcemapsWrite ".";
             Dest (Gulp.gulpDestDir_ self)]) ∧
  (∃ self w' bOptions,
     outcome (Exorcist.init cfg argv w) = Ok self ∧
     world (Exorcist.init cfg argv w) = w' ∧
     browserify_calls (trace (Exorcist.init cfg argv w)) = [bOptions] ∧
     bOptions !! "debug" = Some (JBool true) ∧
     ∀ changedFiles beginTime,
       outcome (Exorcist.bundle self changedFiles beginTime w') = Ok tt ∧
       stages (trace (Exorcist.bundle self changedFiles beginTime w')) =
         [Exorcist (path_resolve2 (paths_public cfg) (mapFile (anotherBrowserify cfg)));
          WriteStream (path_resolve2 (paths_public cfg) (outFile (anotherBrowserify cfg)))]).
Proof.
  intros Hsm. split.
  - destruct (gulp_init_run cfg argv w) as (l & w2 & _ & _ & _ & _ & _ & _ & Hinit).
    destruct (make_bOptions_run cfg (scan_argv argv) w2)
      as (b & w' & Hb & _ & _ & _ & _ & Hdebug & _).
    rewrite (Hinit _ _ Hb). cbn [outcome world trace].
    eexists _, w', b. split_and!; try reflexivity.
    + by apply browserify_calls_wiring.
    + by rewrite Hdebug, Hsm.
    + intros names cf bt Hnames. split; [by erewrite bundle_ok|].
      erewrite stages_bundle_ok by exact Hnames.
      unfold spec_chain. cbn [Gulp.brunchConfig_]. rewrite Hsm.
      destruct (optimize cfg); by rewrite <-?app_assoc.
  - destruct (make_bOptions_run cfg (scan_argv argv) w)
      as (b & w' & Hb & _ & _ & _ & _ & Hdebug & _).
    rewrite (exorcist_init_run _ _ _ _ _ Hb). cbn [outcome world trace].
    eexists _, w', b. split_and!; try reflexivity.
    + apply browserify_calls_wiring, minify_has_no_browserify.
    + by rewrite Hdebug, Hsm.
    + intros cf bt. rewrite exorcist_bundle_run. cbn [outcome trace]. split; [done|].
      rewrite !stages_app, stages_start_line, stages_pipes.
      cbn [Exorcist.brunchConfig_ Exorcist.outMapFile_ Exorcist.outFile_].
      by rewrite Hsm.
Qed.

Lemma source_maps_force_debug_and_emit_map_witness :
  ∃ bOptions : gmap string JsVal,
    browserify_calls (trace (@Gulp.init Posix.node (Sample.config true false JUndefined)
                               ["node"; "brunch"; "build"] Sample.world)) = [bOptions] ∧
    bOptions !! "debug" = Some (JBool true) ∧
    props_of (heap Sample.world) 2%positive !! "debug" = Some (JBool false).
Proof.
  destruct (@source_maps_force_debug_and_emit_map Posix.node (Sample.config true false JUndefined)
              ["node"; "brunch"; "build"] Sample.world eq_refl)
    as [(self & w' & bOptions & _ & _ & Hcalls & Hdebug & _) _].
  exists bOptions. split; [exact Hcalls|]. split; [exact Hdebug|]. reflexivity.
Defined.

(** C6.  In both variants the constructor sets [watching_] by scanning the
    invocation arguments for an element equal to ["watch"]; exactly when
    there is one, the options handed to [browserify] carry two distinct new
    empty objects under [cache] and [packageCache] and the bundler is
    wrapped by [watchify]; otherwise both entries are left as the host
    gave them and [watchify] is not called.  [bundle] and [teardown] read
    the stored flag and never look at the arguments again. *)
Theorem watch_mode_decided_at_construction `{Node} (cfg : BrunchConfig)
    (argv : list string) (w : World) :
  (∃ self w' bOptions,
     outcome (Gulp.init cfg argv w) = Ok self ∧
     world (Gulp.init cfg argv w) = w' ∧
     browserify_calls (trace (Gulp.init cfg argv w)) = [bOptions] ∧
     (Gulp.watching_ self = true ↔ "watch" ∈ argv) ∧
     caching_iff_watch argv (user_options cfg (heap w)) (heap w) (heap w') bOptions
       (trace (Gulp.init cfg argv w))) ∧
  (∃ self w' bOptions,
     outcome (Exorcist.init cfg argv w) = Ok self ∧
     world (Exorcist.init cfg argv w) = w' ∧
     browserify_calls (trace (Exorcist.init cfg argv w)) = [bOptions] ∧
     (Exorcist.watching_ self = true ↔ "watch" ∈ argv) ∧
     caching_iff_watch argv (user_options cfg (heap w)) (heap w) (heap w') bOptions
       (trace (Exorcist.init cfg argv w))).
Proof.
  split.
  - destruct (gulp_init_run cfg argv w) as (l & w2 & _ & _ & Hdom & Hsame & _ & _ & Hinit).
    destruct (make_bOptions_run cfg (scan_argv argv) w2)
      as (b & w' & Hb & _ & _ & _ & _ & _ & Hcaches).
    rewrite (Hinit _ _ Hb). cbn [outcome world trace Gulp.watching_].
    eexists _, w', b. split_and!; try reflexivity.
    + by apply browserify_calls_wiring.
    + apply scan_argv_watch.
    + unfold caching_iff_watch. rewrite watchify_calls_wiring by done.
      assert (∀ k, k ≠ "compress" →
                user_options cfg (heap w2) !! k = user_options cfg (heap w) !! k) as Huser.
      { intros k Hk. unfold user_options. destruct (browserifyOptions _); [by apply Hsame|done]. }
      split.
      * intros Hwatch%scan_argv_watch. rewrite Hwatch in *.
        destruct Hcaches as (c & pc & ? & ? & ? & [? ?] & [? ?]).
        exists c, pc. unfold fresh_empty. split_and!; try done; set_solver.
      * intros Hwatch%scan_argv_no_watch. rewrite Hwatch in *.
        destruct Hcaches as (_ & -> & ->). by rewrite !Huser.
  - destruct (make_bOptions_run cfg (scan_argv argv) w)
      as (b & w' & Hb & _ & _ & _ & _ & _ & Hcaches).
    rewrite (exorcist_init_run _ _ _ _ _ Hb). cbn [outcome world trace Exorcist.watching_].
    eexists _, w', b. split_and!; try reflexivity.
    + apply browserify_calls_wiring, minify_has_no_browserify.
    + apply scan_argv_watch.
    + unfold caching_iff_watch.
      rewrite watchify_calls_wiring by apply minify_has_no_watchify.
      split.
      * intros Hwatch%scan_argv_watch. rewrite Hwatch in *.
        destruct Hcaches as (c & pc & ? & ? & ? & ? & ?). by exists c, pc.
      * intros Hwatch%scan_argv_no_watch. rewrite Hwatch in *.
        by destruct Hcaches as (_ & -> & ->).
Qed.

Lemma watch_mode_decided_at_construction_witness :
  ∃ self (bOptions : gmap string JsVal) c pc,
    outcome (@Gulp.init Posix.node (Sample.config false false JUndefined)
               ["node"; "brunch"; "watch"] Sample.world) = Ok self ∧
    browserify_calls (trace (@Gulp.init Posix.node (Sample.config false false JUndefined)
                               ["node"; "brunch"; "watch"] Sample.world)) = [bOptions] ∧
    Gulp.watching_ self = true ∧
    bOptions !! "cache" = Some (JObj c) ∧
    bOptions !! "packageCache" = Some (JObj pc) ∧
    c ≠ pc.
Proof.
  destruct (@watch_mode_decided_at_construction Posix.node (Sample.config false false JUndefined)
              ["node"; "brunch"; "watch"] Sample.world)
    as [(self & w' & bOptions & Hself & _ & Hcalls & Hflag & Hwatch & _) _].
  assert ("watch" ∈ ["node"; "brunch"; "watch"]) as Hin by (apply scan_argv_watch; reflexivity).
  destruct (Hwatch Hin) as (c & pc & Hc & Hpc & Hne & _).
  exists self, bOptions, c, pc.
  split; [exact Hself|]. split; [exact Hcalls|]. split; [by apply Hflag|]. split; [exact Hc|]. split; [exact Hpc|].
  exact Hne.
Defined.

(** C9.  In both variants the options handed to [browserify] are the
    host's [browserifyOptions] copied key by key over the defaults, so a
    host [extensions] entry replaces the default list, which is kept only
    when the host gives none; the forced flags are applied after the copy:
    with source maps enabled [debug] is [true] even if the host set it to
    [false], and in watch mode [cache] and [packageCache] are two new empty
    objects whatever the host supplied. *)
Theorem host_options_copied_then_forced `{Node} (cfg : BrunchConfig)
    (argv : list string) (w : World) :
  (∃ w' bOptions,
     world (Gulp.init cfg argv w) = w' ∧
     browserify_calls (trace (Gulp.init cfg argv w)) = [bOptions] ∧
     copied_then_forced (sourceMaps cfg) argv (user_options cfg (heap w))
       (heap w) (heap w') bOptions) ∧
  (∃ w' bOptions,
     world (Exorcist.init cfg argv w) = w' ∧
     browserify_calls (trace (Exorcist.init cfg argv w)) = [bOptions] ∧
     copied_then_forced (sourceMaps cfg) argv (user_options cfg (heap w))
       (heap w) (heap w') bOptions).
Proof.
  assert (∀ (w0 w2 w' : World) b,
    make_bOptions cfg (scan_argv argv) w2 = {| outcome := Ok b; world := w'; trace := [] |} →
    dom (heap w0) ⊆ dom (heap w2) →
    (∀ k v, user_options cfg (heap w0) !! k = Some v →
            user_options cfg (heap w2) !! k = Some v) →
    (∀ k, k ≠ "compress" →
          user_options cfg (heap w2) !! k = user_options cfg (heap w0) !! k) →
    copied_then_forced (sourceMaps cfg) argv (user_options cfg (heap w0))
      (heap w0) (heap w') b) as Hcore.
  { intros w0 w2 w' b Hb Hdom Hmono Hsame.
    destruct (make_bOptions_run cfg (scan_argv argv) w2)
      as (b' & w'' & Hb' & _ & _ & _ & Hother & Hdebug & Hcaches).
    rewrite Hb in Hb'. injection Hb' as <- <-.
    unfold copied_then_forced. split_and!.
    - intros k v Huser Hsm Hwatch.
      destruct (decide (k = "debug")) as [->|Hnd].
      { destruct (sourceMaps cfg); [by destruct Hsm|]. by rewrite Hdebug, Hsame. }
      destruct (scan_argv argv) eqn:Hscan.
      + destruct Hwatch as [? ?]; [by apply scan_argv_watch|].
        rewrite Hother by done. rewrite lookup_union, (Hmono _ _ Huser).
        by destruct (default_bOptions !! k).
      + destruct Hcaches as (_ & Hc & Hpc).
        destruct (decide (k = "cache")) as [->|?]; [by rewrite Hc, Hsame|].
        destruct (decide (k = "packageCache")) as [->|?]; [by rewrite Hpc, Hsame|].
        rewrite Hother by done. rewrite lookup_union, (Hmono _ _ Huser).
        by destruct (default_bOptions !! k).
    - intros Hnone. rewrite Hother by done.
      rewrite lookup_union, Hsame, Hnone by done. done.
    - intros Hsm. by rewrite Hdebug, Hsm.
    - intros Hwatch%scan_argv_watch. rewrite Hwatch in Hcaches.
      destruct Hcaches as (c & pc & ? & ? & ? & [? ?] & [? ?]).
      exists c, pc. unfold fresh_empty. split_and!; try done; set_solver. }
  split.
  - destruct (gulp_init_run cfg argv w) as (l & w2 & _ & _ & Hdom & Hsame & Hkeep & _ & Hinit).
    destruct (make_bOptions_run cfg (scan_argv argv) w2) as (b & w' & Hb & _).
    rewrite (Hinit _ _ Hb). cbn [outcome world trace].
    exists w', b. split_and!; [done|by apply browserify_calls_wiring|].
    apply (Hcore w w2 w' b Hb Hdom).
    + intros k v. unfold user_options. destruct (browserifyOptions _); [|done].
      destruct (decide (k = "compress")) as [->|Hk]; [apply Hkeep|by rewrite Hsame].
    + intros k Hk. unfold user_options. destruct (browserifyOptions _); [by apply Hsame|done].
  - destruct (make_bOptions_run cfg (scan_argv argv) w) as (b & w' & Hb & _).
    rewrite (exorcist_init_run _ _ _ _ _ Hb). cbn [outcome world trace].
    exists w', b. split_and!; [done|apply browserify_calls_wiring, minify_has_no_browserify|].
    by apply (Hcore w w w' b Hb).
Qed.

Lemma host_options_copied_then_forced_witness :
  ∃ bOptions : gmap string JsVal,
    browserify_calls (trace (@Exorcist.init Posix.node (Sample.config true false JUndefined)
                               ["node"; "brunch"; "watch"] Sample.world)) = [bOptions] ∧
    bOptions !! "extensions" = Some (JArr [JStr ".coffee"]) ∧
    bOptions !! "debug" = Some (JBool true) ∧
    ∃ c, bOptions !! "cache" = Some (JObj c).
Proof.
  destruct (@host_options_copied_then_forced Posix.node (Sample.config true false JUndefined)
              ["node"; "brunch"; "watch"] Sample.world)
    as [_ (w' & bOptions & _ & Hcalls & Hcopy & _ & Hdebug & Hwatch)].
  assert ("watch" ∈ ["node"; "brunch"; "watch"]) as Hin by (apply scan_argv_watch; reflexivity).
  destruct (Hwatch Hin) as (c & pc & Hc & _).
  exists bOptions. split; [exact Hcalls|]. split; [|split; [by apply Hdebug|by exists c]].
  apply Hcopy.
  - reflexivity.
  - intros _. discriminate.
  - intros _. split; discriminate.
Defined.

(** ** Completion: the report and the sentinel *)

Lemma omap_pipes {A} (f : Effect → option A) (chain : list Stage) :
  (∀ s, f (EPipe s) = None) → omap f (map EPipe chain) = [].
Proof. intros Hf. induction chain as [|s chain IH]; [done|]. cbn. by rewrite Hf. Qed.

Lemma omap_logs {A} (f : Effect → option A) (lines : list (list string)) :
  (∀ args, f (EConsoleLog args) = None) → omap f (map EConsoleLog lines) = [].
Proof. intros Hf. induction lines as [|l lines IH]; [done|]. cbn. by rewrite Hf. Qed.

Lemma logged_logs (lines : list (list string)) : logged (map EConsoleLog lines) = lines.
Proof. induction lines as [|l lines IH]; [done|]. cbn. by f_equal. Qed.

Section Completion.
Context `{Node}.

Lemma start_line_logs cf :
  start_line cf = map EConsoleLog (if multiple cf then [start_bundling] else []).
Proof. unfold start_line. by destruct (multiple cf). Qed.

(** The report block shared by both [finish] listeners. *)
Lemma report_run (lead : string) (short : string → string) cf (ms : Z) (w : World) :
  cf ≠ Some [] →
  match cf with
  | Some files =>
      if multiple cf then
        forEach files (λ changedFile,
          let friendlyName := short changedFile in
          console_log [TAB +:+ "Compiled:"; chalk_underline friendlyName]);;
        console_log ["Finished"; chalk_cyan "bundle"; "in"; pretty ms +:+ "ms" +:+ LF]
      else
        match files with
        | first :: _ =>
            let friendlyName := short first in
            console_log [lead +:+ "Compiled:"; chalk_underline friendlyName; "in";
                         pretty ms +:+ "ms"]
        | [] => throw (TypeError "Cannot read property 'indexOf' of undefined")
        end
  | None => skip
  end w =
  {| outcome := Ok tt; world := w; trace := map EConsoleLog (report lead short cf ms) |}.
Proof.
  intros Hcf. unfold report. destruct cf as [files|]; [|done].
  destruct (multiple (Some files)).
  - unfold console_log. erewrite bind_ok; [|apply forEach_emit].
    unfold emit. rewrite after_ok. f_equal.
    rewrite map_app, map_map. done.
  - by destruct files.
Qed.

(** The sentinel block of the gulp [finish] listener. *)
Lemma gulp_touch_run (self : Gulp.Plugin) (w : World) :
  match touchOnCompile (Gulp.config_ self) with
  | Some file =>
      if truthy (JStr file) then
        touch_sync (path_resolve1 file);;
        console_log [TAB +:+ "Triggering browser reload"]
      else skip
  | None => skip
  end w =
  {| outcome := Ok tt;
     world := touch_world (sentinel (Gulp.config_ self)) w;
     trace := match sentinel (Gulp.config_ self) with
              | Some file => [ETouch file; EConsoleLog reload_line]
              | None => []
              end |}.
Proof.
  unfold sentinel. destruct (touchOnCompile _) as [file|]; [|done].
  destruct (truthy (JStr file)); [|done].
  erewrite bind_ok; [|reflexivity]. done.
Qed.

Lemma gulp_on_finish_run (self : Gulp.Plugin) cf bt et (w : World) :
  cf ≠ Some [] →
  Gulp.on_finish self cf bt et w =
    {| outcome := Ok tt;
       world := touch_world (sentinel (Gulp.config_ self)) w;
       trace := map EConsoleLog (report TAB Gulp.shortFileName cf (elapsed_ms bt et))
                ++ match sentinel (Gulp.config_ self) with
                   | Some file => [ETouch file; EConsoleLog reload_line]
                   | None => []
                   end |}.
Proof.
  intros Hcf. unfold Gulp.on_finish. cbv zeta.
  erewrite bind_ok; [|by apply report_run]. by rewrite gulp_touch_run.
Qed.

Lemma exorcist_on_finish_run (self : Exorcist.Plugin) cf bt et (w : World) :
  cf ≠ Some [] →
  Exorcist.on_finish self cf bt et w =
    {| outcome := Ok tt;
       world := touch_world (sentinel (Exorcist.config_ self)) w;
       trace := match sentinel (Exorcist.config_ self) with
                | Some file => [ETouch file]
                | None => []
                end
                ++ map EConsoleLog
                     (report LF Exorcist.shortFileName cf (elapsed_ms bt et)) |}.
Proof.
  intros Hcf. unfold Exorcist.on_finish.
  assert (match touchOnCompile (Exorcist.config_ self) with
          | Some file => if truthy (JStr file) then touch_sync (path_resolve1 file) else skip
          | None => skip
          end w =
          {| outcome := Ok tt;
             world := touch_world (sentinel (Exorcist.config_ self)) w;
             trace := match sentinel (Exorcist.config_ self) with
                      | Some file => [ETouch file]
                      | None => []
                      end |}) as Htouch.
  { unfold sentinel. destruct (touchOnCompile _) as [file|]; [|done].
    by destruct (truthy (JStr file)). }
  erewrite bind_ok; [|exact Htouch]. cbv zeta. by rewrite report_run.
Qed.

Lemma listeners_bundle (event : string) cf (chain : list Stage) bt :
  listeners event
    (start_line cf ++ [EBundlerBundle; EOn "error" OnBundleError]
     ++ map EPipe chain ++ [EOn "finish" (OnFinish cf bt)]) =
  (if String.eqb "error" event then [OnBundleError] else [])
  ++ (if String.eqb "finish" event then [OnFinish cf bt] else []).
Proof.
  unfold listeners. rewrite !omap_app, start_line_logs.
  rewrite omap_logs by done. rewrite omap_pipes by done. cbn -[String.eqb].
  by destruct (String.eqb "error" event), (String.eqb "finish" event).
Qed.

Lemma bundler_runs_bundle cf (chain : list Stage) bt :
  bundler_runs
    (start_line cf ++ [EBundlerBundle; EOn "error" OnBundleError]
     ++ map EPipe chain ++ [EOn "finish" (OnFinish cf bt)]) = 1%nat.
Proof.
  unfold bundler_runs. rewrite !omap_app, start_line_logs.
  rewrite omap_logs by done. rewrite omap_pipes by done. done.
Qed.

(** A gulp run that finishes. *)
Lemma gulp_run_finished (self : Gulp.Plugin) cf bt et (w : World) (names : list string) :
  custom_names (gulpPipeCreateFns (Gulp.config_ self)) = Some names →
  Gulp.run self cf bt (Finished et) w =
    after (trace (Gulp.bundle self cf bt w)) (Gulp.on_finish self cf bt et w).
Proof.
  intros Hnames. unfold Gulp.run. rewrite (bundle_ok _ _ _ _ _ Hnames).
  cbn [outcome world trace]. unfold Gulp.deliver. rewrite listeners_bundle.
  cbn [String.eqb Ascii.eqb Bool.eqb app forEach].
  by rewrite bind_skip_r.
Qed.

(** A gulp run whose bundle stream fails. *)
Lemma gulp_run_failed (self : Gulp.Plugin) cf bt (error : string) (w : World)
    (names : list string) :
  custom_names (gulpPipeCreateFns (Gulp.config_ self)) = Some names →
  Gulp.run self cf bt (Failed error) w =
    after (trace (Gulp.bundle self cf bt w)) (Gulp.on_error error w).
Proof.
  intros Hnames. unfold Gulp.run. rewrite (bundle_ok _ _ _ _ _ Hnames).
  cbn [outcome world trace]. unfold Gulp.deliver. rewrite listeners_bundle.
  cbn [String.eqb Ascii.eqb Bool.eqb app forEach].
  by rewrite bind_skip_r.
Qed.

Lemma exorcist_run_finished (self : Exorcist.Plugin) cf bt et (w : World) :
  Exorcist.run self cf bt (Finished et) w =
    after (trace (Exorcist.bundle self cf bt w)) (Exorcist.on_finish self cf bt et w).
Proof.
  unfold Exorcist.run. rewrite exorcist_bundle_run.
  cbn [outcome world trace]. unfold Exorcist.deliver. rewrite listeners_bundle.
  cbn [String.eqb Ascii.eqb Bool.eqb app forEach].
  by rewrite bind_skip_r.
Qed.

Lemma exorcist_run_failed (self : Exorcist.Plugin) cf bt (error : string) (w : World) :
  Exorcist.run self cf bt (Failed error) w =
    after (trace (Exorcist.bundle self cf bt w)) (Exorcist.on_error error w).
Proof.
  unfold Exorcist.run. rewrite exorcist_bundle_run.
  cbn [outcome world trace]. unfold Exorcist.deliver. rewrite listeners_bundle.
  cbn [String.eqb Ascii.eqb Bool.eqb app forEach].
  by rewrite bind_skip_r.
Qed.

Lemma logged_bundle cf (chain : list Stage) bt :
  logged
    (start_line cf ++ [EBundlerBundle; EOn "error" OnBundleError]
     ++ map EPipe chain ++ [EOn "finish" (OnFinish cf bt)]) =
  if multiple cf then [start_bundling] else [].
Proof.
  unfold logged. rewrite !omap_app, start_line_logs.
  rewrite omap_pipes by done. cbn. rewrite app_nil_r. apply logged_logs.
Qed.

Lemma touched_bundle cf (chain : list Stage) bt :
  touched
    (start_line cf ++ [EBundlerBundle; EOn "error" OnBundleError]
     ++ map EPipe chain ++ [EOn "finish" (OnFinish cf bt)]) = [].
Proof.
  unfold touched. rewrite !omap_app, start_line_logs.
  rewrite omap_logs by done. rewrite omap_pipes by done. done.
Qed.

(** The whole of a gulp run that finishes. *)
Lemma gulp_finished (self : Gulp.Plugin) cf bt et (w : World) (names : list string) :
  custom_names (gulpPipeCreateFns (Gulp.config_ self)) = Some names →
  cf ≠ Some [] →
  let r := Gulp.run self cf bt (Finished et) w in
  outcome r = Ok tt ∧
  world r = touch_world (sentinel (Gulp.config_ self)) w ∧
  bundler_runs (trace r) = 1%nat ∧
  logged (trace r) =
    (if multiple cf then [start_bundling] else [])
    ++ report TAB Gulp.shortFileName cf (elapsed_ms bt et)
    ++ match sentinel (Gulp.config_ self) with Some _ => [reload_line] | None => [] end ∧
  touched (trace r) =
    match sentinel (Gulp.config_ self) with Some file => [file] | None => [] end.
Proof.
  intros Hnames Hcf r. subst r.
  rewrite (gulp_run_finished _ _ _ _ _ _ Hnames), (bundle_ok _ _ _ _ _ Hnames).
  rewrite (gulp_on_finish_run _ _ _ _ _ Hcf). unfold after. cbn [outcome world trace].
  split_and!; try done.
  - unfold bundler_runs. rewrite omap_app, length_app.
    fold (bundler_runs (start_line cf ++ [EBundlerBundle; EOn "error" OnBundleError]
            ++ map EPipe (spec_chain self names) ++ [EOn "finish" (OnFinish cf bt)])).
    rewrite bundler_runs_bundle, omap_app, omap_logs by done.
    by destruct (sentinel _).
  - unfold logged at 1. rewrite omap_app.
    fold (logged (start_line cf ++ [EBundlerBundle; EOn "error" OnBundleError]
            ++ map EPipe (spec_chain self names) ++ [EOn "finish" (OnFinish cf bt)])).
    rewrite logged_bundle, omap_app. f_equal. f_equal; [apply logged_logs|].
    by destruct (sentinel _).
  - unfold touched at 1. rewrite omap_app.
    fold (touched (start_line cf ++ [EBundlerBundle; EOn "error" OnBundleError]
            ++ map EPipe (spec_chain self names) ++ [EOn "finish" (OnFinish cf bt)])).
    rewrite touched_bundle, omap_app, omap_logs by done.
    by destruct (sentinel _).
Qed.

(** The whole of an exorcist run that finishes. *)
Lemma exorcist_finished (self : Exorcist.Plugin) cf bt et (w : World) :
  cf ≠ Some [] →
  let r := Exorcist.run self cf bt (Finished et) w in
  outcome r = Ok tt ∧
  world r = touch_world (sentinel (Exorcist.config_ self)) w ∧
  bundler_runs (trace r) = 1%nat ∧
  logged (trace r) =
    (if multiple cf then [start_bundling] else [])
    ++ report LF Exorcist.shortFileName cf (elapsed_ms bt et) ∧
  touched (trace r) =
    match sentinel (Exorcist.config_ self) with Some file => [file] | None => [] end.
Proof.
  intros Hcf r. subst r.
  rewrite exorcist_run_finished, exorcist_bundle_run.
  rewrite (exorcist_on_finish_run _ _ _ _ _ Hcf). unfold after. cbn [outcome world trace].
  set (chain := (if sourceMaps _ then _ else _) ++ _).
  split_and!; try done.
  - unfold bundler_runs. rewrite omap_app, length_app.
    fold (bundler_runs (start_line cf ++ [EBundlerBundle; EOn "error" OnBundleError]
            ++ map EPipe chain ++ [EOn "finish" (OnFinish cf bt)])).
    rewrite bundler_runs_bundle, omap_app, omap_logs by done.
    by destruct (sentinel _).
  - unfold logged at 1. rewrite omap_app.
    fold (logged (start_line cf ++ [EBundlerBundle; EOn "error" OnBundleError]
            ++ map EPipe chain ++ [EOn "finish" (OnFinish cf bt)])).
    rewrite logged_bundle, omap_app. f_equal.
    fold (logged (map EConsoleLog (report LF Exorcist.shortFileName cf (elapsed_ms bt et)))).
    rewrite logged_logs. by destruct (sentinel _).
  - unfold touched at 1. rewrite omap_app.
    fold (touched (start_line cf ++ [EBundlerBundle; EOn "error" OnBundleError]
            ++ map EPipe chain ++ [EOn "finish" (OnFinish cf bt)])).
    rewrite touched_bundle, omap_app, omap_logs by done.
    rewrite app_nil_r. by destruct (sentinel _).
Qed.
End Completion.

Lemma multiple_many (files : list string) :
  (1 < length files)%nat → multiple (Some files) = true.
Proof. intros Hlen. unfold multiple. by rewrite bool_decide_true. Qed.

(** C7.  A change notification with more than one path makes [bundle] call
    the bundler exactly once; when the run finishes, the log holds the
    start line, then one [Compiled:] line per path, in order, followed by
    one [Finished ... in Xms] line.  A notification with one path gives one
    bundler call and exactly one single-file [Compiled: ... in Xms] line.
    In the gulp variant a configured sentinel adds the closing
    [Triggering browser reload] line and nothing else. *)
Theorem one_run_and_one_report `{Node} :
  (∀ (self : Gulp.Plugin) (files : list string) beginTime endTime (w : World) names,
     custom_names (gulpPipeCreateFns (Gulp.config_ self)) = Some names →
     let r := Gulp.run self (Some files) beginTime (Finished endTime) w in
     let ms := elapsed_ms beginTime endTime in
     let reload := match sentinel (Gulp.config_ self) with
                   | Some _ => [reload_line]
                   | None => []
                   end in
     ((1 < length files)%nat →
        outcome r = Ok tt ∧
        bundler_runs (trace r) = 1%nat ∧
        logged (trace r) =
          [start_bundling]
          ++ map (compiled_line Gulp.shortFileName) files
          ++ [finished_line ms]
          ++ reload) ∧
     (∀ file, files = [file] →
        outcome r = Ok tt ∧
        bundler_runs (trace r) = 1%nat ∧
        logged (trace r) = [single_line TAB Gulp.shortFileName file ms] ++ reload)) ∧
  (∀ (self : Exorcist.Plugin) (files : list string) beginTime endTime (w : World),
     let r := Exorcist.run self (Some files) beginTime (Finished endTime) w in
     let ms := elapsed_ms beginTime endTime in
     ((1 < length files)%nat →
        outcome r = Ok tt ∧
        bundler_runs (trace r) = 1%nat ∧
        logged (trace r) =
          [start_bundling]
          ++ map (compiled_line Exorcist.shortFileName) files
          ++ [finished_line ms]) ∧
     (∀ file, files = [file] →
        outcome r = Ok tt ∧
        bundler_runs (trace r) = 1%nat ∧
        logged (trace r) = [single_line LF Exorcist.shortFileName file ms])).
Proof.
  split.
  - intros self files bt et w names Hnames r ms reload. split.
    + intros Hlen.
      assert (Some files ≠ Some []) as Hcf by (intros [= ->]; simpl in Hlen; lia).
      destruct (gulp_finished self _ bt et w names Hnames Hcf) as (? & _ & ? & Hlog & _).
      split_and!; try done. subst r. rewrite Hlog. unfold report.
      rewrite (multiple_many _ Hlen). by rewrite <-!app_assoc.
    + intros file ->.
      assert (Some [file] ≠ Some []) as Hcf by done.
      destruct (gulp_finished self _ bt et w names Hnames Hcf) as (? & _ & ? & Hlog & _).
      split_and!; try done.
  - intros self files bt et w r ms. split.
    + intros Hlen.
      assert (Some files ≠ Some []) as Hcf by (intros [= ->]; simpl in Hlen; lia).
      destruct (exorcist_finished self _ bt et w Hcf) as (? & _ & ? & Hlog & _).
      split_and!; try done. subst r. rewrite Hlog. unfold report.
      by rewrite (multiple_many _ Hlen).
    + intros file ->.
      assert (Some [file] ≠ Some []) as Hcf by done.
      destruct (exorcist_finished self _ bt et w Hcf) as (? & _ & ? & Hlog & _).
      split_and!; try done.
Qed.

Lemma one_run_and_one_report_witness :
  logged (trace (@Gulp.run Posix.node (Sample.gulp true true JUndefined)
                   (Some ["/home/app/app/a.js"; "/home/app/app/b.js"]) (1, 999000000)
                   (Finished (3, 5)) Sample.world)) =
    [[LF +:+ "Start"; "bundling"];
     [TAB +:+ "Compiled:"; "app/a.js"];
     [TAB +:+ "Compiled:"; "app/b.js"];
     ["Finished"; "bundle"; "in"; "1001ms" +:+ LF];
     [TAB +:+ "Triggering browser reload"]] ∧
  logged (trace (@Exorcist.run Posix.node (Sample.exorcist true true JUndefined)
                   (Some ["/home/app/app/a.js"]) (1, 999000000)
                   (Finished (3, 5)) Sample.world)) =
    [[LF +:+ "Compiled:"; "app/a.js"; "in"; "1001ms"]].
Proof.
  split.
  - assert ((1 < length ["/home/app/app/a.js"; "/home/app/app/b.js"])%nat) as Hlen
      by (simpl; lia).
    apply (proj1 (proj1 (@one_run_and_one_report Posix.node)
                    (Sample.gulp true true JUndefined)
                    ["/home/app/app/a.js"; "/home/app/app/b.js"] (1, 999000000) (3, 5)
                    Sample.world [] eq_refl) Hlen).
  - apply (proj2 (proj2 (@one_run_and_one_report Posix.node)
                    (Sample.exorcist true true JUndefined)
                    ["/home/app/app/a.js"] (1, 999000000) (3, 5) Sample.world)
             "/home/app/app/a.js" eq_refl).
Defined.

Section Quiet.
Context `{Node}.

Lemma quiet_bind {A B} (m : M A) (f : A → M B) :
  quiet m → (∀ a, quiet (f a)) → quiet (m ≫= f).
Proof.
  intros Hm Hf w. destruct (Hm w) as [Hw Ht]. unfold mbind, M_bind.
  destruct (outcome (m w)) as [a|e]; cbn [world trace]; [|done].
  destruct (Hf a (world (m w))) as [Hw' Ht']. split; [congruence|].
  unfold touched in *. by rewrite omap_app, Ht, Ht'.
Qed.

Lemma quiet_skip : quiet skip.
Proof. done. Qed.

Lemma quiet_throw {A} (e : JsError) : quiet (throw (A := A) e).
Proof. done. Qed.

Lemma quiet_pipe (s : Stage) : quiet (pipe s).
Proof. done. Qed.

Lemma quiet_pipe_custom (i : nat) (fns : list JsVal) : quiet (Gulp.pipe_custom i fns).
Proof.
  revert i. induction fns as [|fn fns IH]; intros i; [done|].
  cbn [Gulp.pipe_custom].
  destruct fn; try apply quiet_throw. apply quiet_bind; [apply quiet_pipe|done].
Qed.

(** [bundle] only attaches streams and listeners. *)
Lemma gulp_bundle_quiet (self : Gulp.Plugin) cf bt : quiet (Gulp.bundle self cf bt).
Proof.
  unfold Gulp.bundle.
  repeat (apply quiet_bind; [|intros _]); try done.
  - by destruct (multiple cf).
  - by destruct (sourceMaps _).
  - destruct (truthy _); [|done].
    destruct (gulpPipeCreateFns _); try apply quiet_throw. apply quiet_pipe_custom.
  - by destruct (optimize _).
  - by destruct (sourceMaps _).
Qed.
End Quiet.

Section EmptyNotification.
Context `{Node}.

(** A gulp run that finishes after an empty notification: the listener
    throws before it reaches the sentinel. *)
Lemma gulp_finished_empty (self : Gulp.Plugin) bt et (w : World) (names : list string) :
  custom_names (gulpPipeCreateFns (Gulp.config_ self)) = Some names →
  Gulp.run self (Some []) bt (Finished et) w =
    {| outcome := Thrown undefined_file; world := w;
       trace := trace (Gulp.bundle self (Some []) bt w) |}.
Proof.
  intros Hnames. rewrite (gulp_run_finished _ _ _ _ _ _ Hnames).
  unfold Gulp.on_finish. cbv zeta. cbn [multiple length].
  rewrite bool_decide_false by (simpl; lia).
  rewrite bind_throw. unfold after. cbn [outcome world trace]. by rewrite app_nil_r.
Qed.

(** The sentinel block of the exorcist [finish] listener. *)
Lemma exorcist_touch_run (self : Exorcist.Plugin) (w : World) :
  match touchOnCompile (Exorcist.config_ self) with
  | Some file => if truthy (JStr file) then touch_sync (path_resolve1 file) else skip
  | None => skip
  end w =
  {| outcome := Ok tt;
     world := touch_world (sentinel (Exorcist.config_ self)) w;
     trace := match sentinel (Exorcist.config_ self) with
              | Some file => [ETouch file]
              | None => []
              end |}.
Proof.
  unfold sentinel. destruct (touchOnCompile _) as [file|]; [|done].
  by destruct (truthy (JStr file)).
Qed.

(** An exorcist run that finishes after an empty notification: the
    listener has touched the sentinel when it throws. *)
Lemma exorcist_finished_empty (self : Exorcist.Plugin) bt et (w : World) :
  Exorcist.run self (Some []) bt (Finished et) w =
    {| outcome := Thrown undefined_file;
       world := touch_world (sentinel (Exorcist.config_ self)) w;
       trace := trace (Exorcist.bundle self (Some []) bt w)
                ++ match sentinel (Exorcist.config_ self) with
                   | Some file => [ETouch file]
                   | None => []
                   end |}.
Proof.
  rewrite exorcist_run_finished. unfold Exorcist.on_finish.
  erewrite bind_ok by apply exorcist_touch_run. cbv zeta. cbn [multiple length].
  rewrite bool_decide_false by (simpl; lia).
  unfold throw, after. cbn [outcome world trace]. by rewrite app_nil_r.
Qed.

Lemma exorcist_bundle_touches_nothing (self : Exorcist.Plugin) cf bt (w : World) :
  touched (trace (Exorcist.bundle self cf bt w)) = [].
Proof. rewrite exorcist_bundle_run. apply touched_bundle. Qed.
End EmptyNotification.

(** C8, as amended.  With [touchOnCompile] set to a path, a run that
    finishes, started without a notification or with a non-empty one, sets
    the modification time of the sentinel to the clock reading at
    completion, creating the entry when the file did not exist; the time
    therefore strictly increases exactly when that reading is later than
    the previous modification time.  After an empty notification the
    [finish] listener throws: the gulp variant has not touched the
    sentinel by then, the exorcist variant has.  A run whose bundle stream
    fails, and a [bundle] that throws, touch nothing and leave every
    modification time as it was. *)
Theorem sentinel_set_to_completion_time `{Node} :
  (∀ (self : Gulp.Plugin) changedFiles beginTime (w : World) names file,
     touchOnCompile (Gulp.config_ self) = Some file →
     file ≠ "" →
     custom_names (gulpPipeCreateFns (Gulp.config_ self)) = Some names →
     (changedFiles ≠ Some [] →
      ∀ endTime,
        let r := Gulp.run self changedFiles beginTime (Finished endTime) w in
        outcome r = Ok tt ∧
        touched (trace r) = [path_resolve1 file] ∧
        mtimes (world r) = <[path_resolve1 file := clock w]> (mtimes w) ∧
        mtimes (world r) !! path_resolve1 file = Some (clock w) ∧
        (∀ old, mtimes w !! path_resolve1 file = Some old →
           ∃ new, mtimes (world r) !! path_resolve1 file = Some new ∧
                  (old < new ↔ old < clock w))) ∧
     (changedFiles = Some [] →
      ∀ endTime,
        let r := Gulp.run self changedFiles beginTime (Finished endTime) w in
        outcome r = Thrown undefined_file ∧
        touched (trace r) = [] ∧
        mtimes (world r) = mtimes w) ∧
     (∀ error,
        let r := Gulp.run self changedFiles beginTime (Failed error) w in
        touched (trace r) = [] ∧ mtimes (world r) = mtimes w)) ∧
  (∀ (self : Gulp.Plugin) changedFiles beginTime (w : World) completion e,
     outcome (Gulp.bundle self changedFiles beginTime w) = Thrown e →
     let r := Gulp.run self changedFiles beginTime completion w in
     outcome r = Thrown e ∧ touched (trace r) = [] ∧ mtimes (world r) = mtimes w) ∧
  (∀ (self : Exorcist.Plugin) changedFiles beginTime (w : World) file,
     touchOnCompile (Exorcist.config_ self) = Some file →
     file ≠ "" →
     (∀ endTime,
        let r := Exorcist.run self changedFiles beginTime (Finished endTime) w in
        (changedFiles ≠ Some [] → outcome r = Ok tt) ∧
        (changedFiles = Some [] → outcome r = Thrown undefined_file) ∧
        touched (trace r) = [path_resolve1 file] ∧
        mtimes (world r) = <[path_resolve1 file := clock w]> (mtimes w) ∧
        mtimes (world r) !! path_resolve1 file = Some (clock w) ∧
        (∀ old, mtimes w !! path_resolve1 file = Some old →
           ∃ new, mtimes (world r) !! path_resolve1 file = Some new ∧
                  (old < new ↔ old < clock w))) ∧
     (∀ error,
        let r := Exorcist.run self changedFiles beginTime (Failed error) w in
        touched (trace r) = [] ∧ mtimes (world r) = mtimes w)).
Proof.
  assert (∀ file, file ≠ "" → truthy (JStr file) = true) as Hpath.
  { intros file Hfile. simpl. by destruct (String.eqb_spec file ""). }
  split_and!.
  - intros self cf bt w names file Htouch Hfile Hnames.
    assert (sentinel (Gulp.config_ self) = Some (path_resolve1 file)) as Hsentinel.
    { unfold sentinel. by rewrite Htouch, Hpath. }
    split_and!.
    + intros Hcf et r.
      destruct (gulp_finished self cf bt et w names Hnames Hcf) as (? & Hw & _ & _ & Ht).
      fold r in Hw, Ht. rewrite Hsentinel in Hw, Ht. rewrite Hw. cbn.
      split_and!; try done.
      * by rewrite lookup_insert_eq.
      * intros old _. exists (clock w). by rewrite lookup_insert_eq.
    + intros -> et r. subst r. rewrite (gulp_finished_empty _ _ _ _ _ Hnames).
      cbn [outcome world trace].
      by destruct (gulp_bundle_quiet self (Some []) bt w) as [_ ->].
    + intros error r. subst r.
      rewrite (gulp_run_failed _ _ _ _ _ _ Hnames).
      destruct (gulp_bundle_quiet self cf bt w) as [_ Hquiet].
      unfold after, Gulp.on_error, console_error, emit. cbn [outcome world trace].
      split; [|done]. unfold touched in *. by rewrite omap_app, Hquiet.
  - intros self cf bt w completion e Hthrown r. subst r. unfold Gulp.run.
    rewrite Hthrown. destruct (gulp_bundle_quiet self cf bt w) as [-> ->]. done.
  - intros self cf bt w file Htouch Hfile.
    assert (sentinel (Exorcist.config_ self) = Some (path_resolve1 file)) as Hsentinel.
    { unfold sentinel. by rewrite Htouch, Hpath. }
    split.
    + intros et r.
      assert (touched (trace r) = [path_resolve1 file] ∧
              world r = touch_world (Some (path_resolve1 file)) w ∧
              (cf ≠ Some [] → outcome r = Ok tt) ∧
              (cf = Some [] → outcome r = Thrown undefined_file)) as (Ht & Hw & ? & ?).
      { subst r. destruct (decide (cf = Some [])) as [->|Hcf].
        - rewrite exorcist_finished_empty, Hsentinel. cbn [outcome world trace].
          unfold touched. rewrite omap_app.
          fold (touched (trace (Exorcist.bundle self (Some []) bt w))).
          by rewrite exorcist_bundle_touches_nothing.
        - destruct (exorcist_finished self cf bt et w Hcf) as (? & Hw & _ & _ & Ht).
          rewrite Hsentinel in Hw, Ht. done. }
      rewrite Hw. cbn. split_and!; try done.
      * by rewrite lookup_insert_eq.
      * intros old _. exists (clock w). by rewrite lookup_insert_eq.
    + intros error r. subst r.
      rewrite exorcist_run_failed.
      unfold after, Exorcist.on_error, console_error, emit. cbn [outcome world trace].
      rewrite exorcist_bundle_run. cbn [world trace].
      split; [|done]. unfold touched. rewrite omap_app.
      fold (touched (start_line cf ++ [EBundlerBundle; EOn "error" OnBundleError]
              ++ map EPipe ((if sourceMaps (Exorcist.brunchConfig_ self)
                             then [Exorcist (Exorcist.outMapFile_ self)] else [])
                            ++ [WriteStream (Exorcist.outFile_ self)])
              ++ [EOn "finish" (OnFinish cf bt)])).
      by rewrite touched_bundle.
Qed.

Lemma sentinel_set_to_completion_time_witness :
  mtimes Sample.world !! "/home/app/tmp/reload" = Some 90 ∧
  mtimes (world (@Gulp.run Posix.node (Sample.gulp true true JUndefined)
                   (Some ["/home/app/app/a.js"]) (0, 0) (Finished (0, 5000000)) Sample.world))
    !! "/home/app/tmp/reload" = Some 100 ∧
  mtimes (world (@Gulp.run Posix.node (Sample.gulp true true JUndefined)
                   (Some []) (0, 0) (Finished (0, 5000000)) Sample.world))
    = mtimes Sample.world ∧
  mtimes (world (@Gulp.run Posix.node (Sample.gulp true true JUndefined)
                   (Some ["/home/app/app/a.js"]) (0, 0) (Failed "SyntaxError") Sample.world))
    = mtimes Sample.world ∧
  mtimes (world (@Gulp.run Posix.node (Sample.gulp true true (JNum 1))
                   (Some ["/home/app/app/a.js"]) (0, 0) (Finished (0, 5000000)) Sample.world))
    = mtimes Sample.world ∧
  mtimes (world (@Exorcist.run Posix.node (Sample.exorcist true true JUndefined)
                   (Some []) (0, 0) (Finished (0, 5000000)) Sample.world))
    !! "/home/app/tmp/reload" = Some 100.
Proof.
  assert ("tmp/reload" ≠ "") as Hfile by discriminate.
  assert (Some ["/home/app/app/a.js"] ≠ Some []) as Hcf by discriminate.
  destruct (@sentinel_set_to_completion_time Posix.node) as (Hgulp & Hthrown & Hexorcist).
  destruct (Hgulp (Sample.gulp true true JUndefined) (Some ["/home/app/app/a.js"]) (0, 0)
              Sample.world [] "tmp/reload" eq_refl Hfile eq_refl)
    as (Hfinished & _ & Hfailed).
  destruct (Hfinished Hcf (0, 5000000)) as (_ & _ & _ & Hclock & _).
  destruct (Hgulp (Sample.gulp true true JUndefined) (Some []) (0, 0)
              Sample.world [] "tmp/reload" eq_refl Hfile eq_refl)
    as (_ & Hempty & _).
  destruct (Hempty eq_refl (0, 5000000)) as (_ & _ & Huntouched).
  destruct (Hfailed "SyntaxError") as [_ Hsame].
  destruct (Hthrown (Sample.gulp true true (JNum 1)) (Some ["/home/app/app/a.js"]) (0, 0)
              Sample.world (Finished (0, 5000000)) (@Gulp.not_an_array) eq_refl)
    as (_ & _ & Hkept).
  destruct (Hexorcist (Sample.exorcist true true JUndefined) (Some []) (0, 0) Sample.world
              "tmp/reload" eq_refl Hfile) as [Hfinished' _].
  destruct (Hfinished' (0, 5000000)) as (_ & _ & _ & _ & Hclock' & _).
  split; [reflexivity|]. split; [exact Hclock|]. split; [exact Huntouched|].
  split; [exact Hsame|]. split; [exact Hkept|exact Hclock'].
Defined.

(** C8, as stated, fails.  A second finished run at the same clock
    reading leaves the sentinel's time at 100; a sentinel dated 200 is set
    back to 100 by a run that finishes when the clock reads 100; and a
    gulp run that finishes after an empty notification touches nothing. *)
Lemma sentinel_strict_increase_counterexample :
  let self := Sample.gulp true true JUndefined in
  let changed := Some ["/home/app/app/a.js"] in
  let sentinel_file := "/home/app/tmp/reload" in
  let first := @Gulp.run Posix.node self changed (0, 0) (Finished (0, 5000000))
                 Sample.world in
  let second := @Gulp.run Posix.node self changed (0, 0) (Finished (0, 5000000))
                  (world first) in
  let future := {| heap := heap Sample.world;
                   mtimes := {[ sentinel_file := 200 ]};
                   clock := 100 |} in
  let back := @Gulp.run Posix.node self changed (0, 0) (Finished (0, 5000000)) future in
  let empty := @Gulp.run Posix.node self (Some []) (0, 0) (Finished (0, 5000000))
                 Sample.world in
  (outcome first = Ok tt ∧ outcome second = Ok tt ∧
   mtimes (world first) !! sentinel_file = Some 100 ∧
   mtimes (world second) !! sentinel_file = Some 100) ∧
  (outcome back = Ok tt ∧
   mtimes future !! sentinel_file = Some 200 ∧
   mtimes (world back) !! sentinel_file = Some 100) ∧
  (listeners "finish" (trace empty) = [OnFinish (Some []) (0, 0)] ∧
   touched (trace empty) = [] ∧
   mtimes (world empty) !! sentinel_file = Some 90).
Proof. vm_compute. done. Qed.

(** * Further properties of the code *)

(** ** Malformed elements of [gulpPipeCreateFns] *)

Section Elements.
Context `{Node}.

Lemma pipe_custom_bad (i : nat) (good : list JsVal) (bad : JsVal) (rest : list JsVal)
    (names : list string) (w : World) :
  mapM factory good = Some names →
  factory bad = None →
  Gulp.pipe_custom i (good ++ bad :: rest) w =
    {| outcome := Thrown (Gulp.not_a_function (i + length good));
       world := w; trace := map EPipe (map Custom names) |}.
Proof.
  revert i names. induction good as [|fn good IH]; intros i names Hnames Hbad.
  - injection Hnames as <-. cbn [app Gulp.pipe_custom length].
    rewrite Nat.add_0_r. by destruct bad.
  - cbn [mapM] in Hnames. destruct fn; simplify_option_eq.
    cbn [app Gulp.pipe_custom]. run_step. erewrite IH by done.
    rewrite after_thrown. cbn [length]. by rewrite Nat.add_succ_r.
Qed.

(** A list that is not all functions splits at its first non-function. *)
Lemma mapM_factory_none (fns : list JsVal) :
  mapM factory fns = None →
  ∃ good bad rest names,
    fns = good ++ bad :: rest ∧ mapM factory good = Some names ∧ factory bad = None.
Proof.
  induction fns as [|fn fns IH]; [done|]. intros Hnone.
  destruct (factory fn) as [name|] eqn:Hfn.
  - destruct (mapM factory fns) as [names|] eqn:Hfns.
    + cbn [mapM] in Hnone. rewrite Hfn, Hfns in Hnone. done.
    + destruct (IH eq_refl) as (good & bad & rest & names & -> & Hgood & Hbad).
      exists (fn :: good), bad, rest, (name :: names). split; [done|]. split; [|done].
      cbn [mapM]. by rewrite Hfn, Hgood.
  - by exists [], fn, fns, [].
Qed.

Lemma bundle_bad_element (self : Gulp.Plugin) cf bt (w : World)
    (good : list JsVal) (bad : JsVal) (rest : list JsVal) (names : list string) :
  gulpPipeCreateFns (Gulp.config_ self) = JArr (good ++ bad :: rest) →
  mapM factory good = Some names →
  factory bad = None →
  Gulp.bundle self cf bt w =
    {| outcome := Thrown (Gulp.not_a_function (length good)); world := w;
       trace := start_line cf
                ++ [EBundlerBundle; EOn "error" OnBundleError]
                ++ map EPipe ([Source (Gulp.entryFile_ self); Buffer]
                              ++ (if sourceMaps (Gulp.brunchConfig_ self)
                                  then [SourcemapsInit true] else [])
                              ++ map Custom names) |}.
Proof.
  intros Hfns Hgood Hbad. unfold Gulp.bundle, start_line. rewrite Hfns. cbn [truthy].
  pose proof (pipe_custom_bad 0 good bad rest names w Hgood Hbad) as Hcustom.
  cbn [Nat.add] in Hcustom.
  destruct (multiple cf), (sourceMaps _); run_step;
    rewrite (bind_thrown _ _ _ _ _ _ Hcustom); run_step;
    cbn [map app]; same_trace.
Qed.

(** The three ways [bundle] can go. *)
Lemma bundle_shape (self : Gulp.Plugin) cf bt (w : World) :
  ∃ chain,
    (is_Some (custom_names (gulpPipeCreateFns (Gulp.config_ self))) ∧
     Gulp.bundle self cf bt w =
       {| outcome := Ok tt; world := w;
          trace := start_line cf ++ [EBundlerBundle; EOn "error" OnBundleError]
                   ++ map EPipe chain ++ [EOn "finish" (OnFinish cf bt)] |}) ∨
    (custom_names (gulpPipeCreateFns (Gulp.config_ self)) = None ∧
     ∃ e, Gulp.bundle self cf bt w =
       {| outcome := Thrown e; world := w;
          trace := start_line cf ++ [EBundlerBundle; EOn "error" OnBundleError]
                   ++ map EPipe chain |}).
Proof.
  destruct (custom_names (gulpPipeCreateFns (Gulp.config_ self))) as [names|] eqn:Hnames.
  - exists (spec_chain self names). left. split; [done|]. by apply bundle_ok.
  - unfold custom_names in Hnames.
    destruct (truthy (gulpPipeCreateFns (Gulp.config_ self))) eqn:Htruthy; [|done].
    destruct (instanceof_Array (gulpPipeCreateFns (Gulp.config_ self))) eqn:Harr.
    + destruct (gulpPipeCreateFns (Gulp.config_ self)) as [| | | | |fns| |] eqn:Hfns;
        try done.
      destruct (mapM_factory_none _ Hnames) as (good & bad & rest & names & -> & Hgood & Hbad).
      eexists. right. split; [done|]. eexists.
      exact (bundle_bad_element self cf bt w good bad rest names Hfns Hgood Hbad).
    + exists ([Source (Gulp.entryFile_ self); Buffer]
              ++ if sourceMaps (Gulp.brunchConfig_ self) then [SourcemapsInit true] else []).
      right. split; [by destruct (gulpPipeCreateFns _)|].
      eexists. rewrite bundle_not_array by done. f_equal. by destruct (sourceMaps _).
Qed.
End Elements.

Lemma factory_none (fn : JsVal) : factory fn = None ↔ instanceof_Function fn = false.
Proof. by destruct fn. Qed.

Lemma mapM_factory_functions (fns : list JsVal) :
  Forall (λ fn, instanceof_Function fn = true) fns →
  mapM factory fns = Some (omap factory fns).
Proof.
  induction 1 as [|fn fns Hfn _ IH]; [done|].
  destruct fn; try done. cbn [mapM omap list_omap factory]. by rewrite IH.
Qed.

(** What the readers see in a trace that begins like every [bundle]. *)
Section Prefix.
Context `{Node}.
Variables (cf : option (list string)) (chain : list Stage) (fin : list Effect).

Let t : list Effect :=
  start_line cf ++ [EBundlerBundle; EOn "error" OnBundleError] ++ map EPipe chain ++ fin.

Lemma bundler_runs_prefix : bundler_runs t = S (bundler_runs fin).
Proof.
  unfold t, bundler_runs. rewrite !omap_app, start_line_logs.
  rewrite omap_logs by done. rewrite omap_pipes by done. done.
Qed.

Lemma listeners_prefix (event : string) :
  listeners event t =
    (if String.eqb "error" event then [OnBundleError] else []) ++ listeners event fin.
Proof.
  unfold t, listeners. rewrite !omap_app, start_line_logs.
  rewrite omap_logs by done. rewrite omap_pipes by done. cbn -[String.eqb].
  by destruct (String.eqb "error" event).
Qed.

Lemma stages_prefix : stages t = chain ++ stages fin.
Proof.
  unfold t. rewrite !stages_app, stages_start_line, stages_pipes. done.
Qed.

Lemma logged_prefix :
  logged t = (if multiple cf then [start_bundling] else []) ++ logged fin.
Proof.
  unfold t, logged. rewrite !omap_app, start_line_logs.
  rewrite omap_pipes by done. cbn. f_equal. apply logged_logs.
Qed.

Lemma touched_prefix : touched t = touched fin.
Proof.
  unfold t, touched. rewrite !omap_app, start_line_logs.
  rewrite omap_logs by done. rewrite omap_pipes by done. done.
Qed.

Lemma error_logged_prefix : error_logged t = error_logged fin.
Proof.
  unfold t, error_logged. rewrite !omap_app, start_line_logs.
  rewrite omap_logs by done. rewrite omap_pipes by done. done.
Qed.
End Prefix.

Lemma thrown_trace `{Node} cf (chain : list Stage) :
  start_line cf ++ [EBundlerBundle; EOn "error" OnBundleError] ++ map EPipe chain =
  start_line cf ++ [EBundlerBundle; EOn "error" OnBundleError] ++ map EPipe chain ++ [].
Proof. by rewrite app_nil_r. Qed.

(** X1.  Gulp variant: when [gulpPipeCreateFns] is an array whose first
    element that is not a function sits at index [k], [bundle] throws the
    error naming index [k]; by then the bundler was started and the stages
    of the [k] functions before it are attached, in order, after source,
    buffer and (with source maps) source-map-init; the minifier, rename and
    destination are not attached and no [finish] listener is registered. *)
Theorem bundle_rejects_non_function `{Node} (self : Gulp.Plugin) changedFiles beginTime
    (w : World) (good : list JsVal) (bad : JsVal) (rest : list JsVal) :
  gulpPipeCreateFns (Gulp.config_ self) = JArr (good ++ bad :: rest) →
  Forall (λ fn, instanceof_Function fn = true) good →
  instanceof_Function bad = false →
  let r := Gulp.bundle self changedFiles beginTime w in
  outcome r =
    Thrown (Error ("AnotherBrowserify: 'gulpPipeCreateFns[" +:+ pretty (length good)
                   +:+ "]' must be a function")) ∧
  world r = w ∧
  bundler_runs (trace r) = 1%nat ∧
  stages (trace r) =
    [Source (Gulp.entryFile_ self); Buffer]
    ++ (if sourceMaps (Gulp.brunchConfig_ self) then [SourcemapsInit true] else [])
    ++ map Custom (omap factory good) ∧
  listeners "finish" (trace r) = [].
Proof.
  intros Hfns Hgood Hbad r. subst r.
  rewrite (bundle_bad_element self _ _ w good bad rest _ Hfns
             (mapM_factory_functions _ Hgood) (proj2 (factory_none _) Hbad)).
  cbn [outcome world trace]. rewrite thrown_trace.
  rewrite bundler_runs_prefix, stages_prefix, listeners_prefix.
  split_and!; try done. by rewrite app_nil_r.
Qed.

Lemma bundle_rejects_non_function_witness :
  let r := @Gulp.bundle Posix.node
             (Sample.gulp true true (JArr [JFun "gulp-header"; JStr "gulp-footer"; JFun "x"]))
             None (0, 0) Sample.world in
  outcome r = Thrown (Error "AnotherBrowserify: 'gulpPipeCreateFns[1]' must be a function") ∧
  stages (trace r) =
    [Source "/home/app/app/main.js"; Buffer; SourcemapsInit true; Custom "gulp-header"].
Proof.
  assert (Forall (λ fn, instanceof_Function fn = true) [JFun "gulp-header"]) as Hgood
    by (constructor; [reflexivity|constructor]).
  destruct (@bundle_rejects_non_function Posix.node
              (Sample.gulp true true (JArr [JFun "gulp-header"; JStr "gulp-footer"; JFun "x"]))
              None (0, 0) Sample.world [JFun "gulp-header"] (JStr "gulp-footer") [JFun "x"]
              eq_refl Hgood eq_refl) as (Hout & _ & _ & Hstages & _).
  split; [exact Hout|exact Hstages].
Defined.

(** X2.  Gulp variant, whatever the configuration: [bundle] starts the
    bundler exactly once, registers exactly one [error] listener on it and
    leaves the world as it was; it returns exactly when
    [gulpPipeCreateFns] is well formed, and the [finish] listener is
    registered exactly when it returns. *)
Theorem bundle_always_starts_the_bundler `{Node} (self : Gulp.Plugin) changedFiles
    beginTime (w : World) :
  let r := Gulp.bundle self changedFiles beginTime w in
  bundler_runs (trace r) = 1%nat ∧
  listeners "error" (trace r) = [OnBundleError] ∧
  world r = w ∧
  (outcome r = Ok tt ↔ is_Some (custom_names (gulpPipeCreateFns (Gulp.config_ self)))) ∧
  (listeners "finish" (trace r) = [OnFinish changedFiles beginTime] ↔ outcome r = Ok tt) ∧
  (listeners "finish" (trace r) = [] ↔ outcome r ≠ Ok tt).
Proof.
  intros r. subst r.
  destruct (bundle_shape self changedFiles beginTime w)
    as [chain [[Hsome ->]|[Hnone [e ->]]]]; cbn [outcome world trace].
  - rewrite bundler_runs_prefix, !listeners_prefix. cbn. split_and!; try done.
  - rewrite thrown_trace, bundler_runs_prefix, !listeners_prefix. cbn.
    rewrite Hnone. split_and!; try done.
Qed.

(** ** The constructor as a whole *)

Section Constructor.
Context `{Node}.

Lemma omap_transforms {A} (f : Effect → option A) (trs : list JsVal) :
  (∀ tr, f (ETransform tr false) = None) →
  omap f (map (λ tr, ETransform tr false) trs) = [].
Proof. intros Hf. induction trs as [|tr trs IH]; [done|]. cbn. by rewrite Hf. Qed.

Lemma bundler_runs_wiring cfg argv bOptions (minify : list Effect) :
  bundler_runs minify = 0%nat → bundler_runs (wiring cfg argv bOptions minify) = 0%nat.
Proof.
  unfold wiring, bundler_runs. rewrite !omap_app, !length_app. intros ->.
  rewrite omap_transforms by done. by destruct (scan_argv argv).
Qed.

Lemma logged_wiring cfg argv bOptions (minify : list Effect) :
  logged minify = [] → logged (wiring cfg argv bOptions minify) = [].
Proof.
  unfold wiring, logged. rewrite !omap_app. intros ->.
  rewrite omap_transforms by done. by destruct (scan_argv argv).
Qed.

Lemma listeners_wiring (event : string) cfg argv bOptions (minify : list Effect) :
  listeners event minify = [] →
  listeners event (wiring cfg argv bOptions minify) =
    if scan_argv argv && String.eqb "update" event then [OnUpdate] else [].
Proof.
  unfold wiring, listeners. rewrite !omap_app. intros ->.
  rewrite omap_transforms by done. destruct (scan_argv argv); cbn -[String.eqb]; [|done].
  by destruct (String.eqb "update" event).
Qed.

Lemma minify_quiet (b : bool) :
  bundler_runs (if b then [ETransform (JFun "uglifyify") true] else []) = 0%nat ∧
  logged (if b then [ETransform (JFun "uglifyify") true] else []) = [] ∧
  ∀ event, listeners event (if b then [ETransform (JFun "uglifyify") true] else []) = [].
Proof. by destruct b. Qed.

(** The gulp constructor: [init], then the initial build. *)
Lemma gulp_constructor_run (cfg : BrunchConfig) (argv : list string) bt (w : World) :
  ∃ self w' bOptions,
    Gulp.init cfg argv w =
      {| outcome := Ok self; world := w'; trace := wiring cfg argv bOptions [] |} ∧
    Gulp.brunchConfig_ self = cfg ∧
    Gulp.watching_ self = scan_argv argv ∧
    Gulp.AnotherBrowserifyBrunchPlugin cfg argv bt w =
      {| outcome := match outcome (Gulp.bundle self None bt w') with
                    | Ok _ => Ok self
                    | Thrown e => Thrown e
                    end;
         world := w';
         trace := wiring cfg argv bOptions [] ++ trace (Gulp.bundle self None bt w') |}.
Proof.
  destruct (gulp_init_run cfg argv w) as (l & w2 & _ & _ & _ & _ & _ & _ & Hinit).
  destruct (make_bOptions_run cfg (scan_argv argv) w2) as (b & w' & Hb & _).
  specialize (Hinit _ _ Hb). eexists _, w', b. split; [exact Hinit|].
  split; [done|]. split; [done|].
  unfold Gulp.AnotherBrowserifyBrunchPlugin. erewrite bind_ok by exact Hinit.
  match goal with
  | |- context [Gulp.bundle ?self None bt w'] =>
      destruct (bundle_shape self None bt w') as [chain [[_ Hrun]|[_ [e Hrun]]]]
  end; rewrite Hrun.
  - erewrite bind_ok by exact Hrun. run_step. cbn [outcome trace]. same_trace.
  - erewrite bind_thrown by exact Hrun. by run_step.
Qed.

(** The exorcist constructor: [init], then the initial build. *)
Lemma exorcist_constructor_run (cfg : BrunchConfig) (argv : list string) bt (w : World) :
  ∃ self w' bOptions,
    Exorcist.init cfg argv w =
      {| outcome := Ok self; world := w';
         trace := wiring cfg argv bOptions
                    (if optimize cfg then [ETransform (JFun "uglifyify") true] else []) |} ∧
    Exorcist.brunchConfig_ self = cfg ∧
    Exorcist.watching_ self = scan_argv argv ∧
    (∀ l, l ∈ dom (heap w) → heap w' !! l = heap w !! l) ∧
    mtimes w' = mtimes w ∧ clock w' = clock w ∧
    Exorcist.AnotherBrowserifyBrunchPlugin cfg argv bt w =
      {| outcome := Ok self; world := w';
         trace := wiring cfg argv bOptions
                    (if optimize cfg then [ETransform (JFun "uglifyify") true] else [])
                  ++ trace (Exorcist.bundle self None bt w') |}.
Proof.
  destruct (make_bOptions_run cfg (scan_argv argv) w) as (b & w' & Hb & ? & ? & ? & _).
  pose proof (exorcist_init_run _ _ _ _ _ Hb) as Hinit.
  eexists _, w', b. split; [exact Hinit|]. split_and!; try done.
  unfold Exorcist.AnotherBrowserifyBrunchPlugin. erewrite bind_ok by exact Hinit.
  erewrite bind_ok by apply exorcist_bundle_run. run_step.
  rewrite exorcist_bundle_run. cbn [trace]. same_trace.
Qed.
End Constructor.

Lemma omap_bundle_prefix `{Node} {A} (f : Effect → option A) cf (chain : list Stage)
    (fin : list Effect) :
  (∀ args, f (EConsoleLog args) = None) →
  f EBundlerBundle = None →
  f (EOn "error" OnBundleError) = None →
  (∀ s, f (EPipe s) = None) →
  omap f (start_line cf ++ [EBundlerBundle; EOn "error" OnBundleError]
          ++ map EPipe chain ++ fin) = omap f fin.
Proof.
  intros Hlog Hrun Hon Hpipe. rewrite !omap_app, start_line_logs.
  rewrite omap_logs by done. rewrite omap_pipes by done. cbn. by rewrite Hrun, Hon.
Qed.

Lemma listeners_app (event : string) (t1 t2 : list Effect) :
  listeners event (t1 ++ t2) = listeners event t1 ++ listeners event t2.
Proof. apply omap_app. Qed.

Lemma logged_app (t1 t2 : list Effect) : logged (t1 ++ t2) = logged t1 ++ logged t2.
Proof. apply omap_app. Qed.

Lemma error_logged_app (t1 t2 : list Effect) :
  error_logged (t1 ++ t2) = error_logged t1 ++ error_logged t2.
Proof. apply omap_app. Qed.

Lemma touched_app (t1 t2 : list Effect) : touched (t1 ++ t2) = touched t1 ++ touched t2.
Proof. apply omap_app. Qed.

Lemma browserify_calls_app (t1 t2 : list Effect) :
  browserify_calls (t1 ++ t2) = browserify_calls t1 ++ browserify_calls t2.
Proof. apply omap_app. Qed.

Lemma bundler_runs_app (t1 t2 : list Effect) :
  bundler_runs (t1 ++ t2) = (bundler_runs t1 + bundler_runs t2)%nat.
Proof. unfold bundler_runs. by rewrite omap_app, length_app. Qed.

Lemma watchify_calls_app (t1 t2 : list Effect) :
  watchify_calls (t1 ++ t2) = (watchify_calls t1 + watchify_calls t2)%nat.
Proof. unfold watchify_calls. by rewrite omap_app, length_app. Qed.

Lemma browserify_calls_prefix `{Node} cf (chain : list Stage) (fin : list Effect) :
  browserify_calls (start_line cf ++ [EBundlerBundle; EOn "error" OnBundleError]
                    ++ map EPipe chain ++ fin) = browserify_calls fin.
Proof. by apply omap_bundle_prefix. Qed.

Lemma watchify_calls_prefix `{Node} cf (chain : list Stage) (fin : list Effect) :
  watchify_calls (start_line cf ++ [EBundlerBundle; EOn "error" OnBundleError]
                  ++ map EPipe chain ++ fin) = watchify_calls fin.
Proof. unfold watchify_calls. by rewrite omap_bundle_prefix. Qed.

(** X3.  Construction runs the initial build once, without a change
    notification, after the bundler is wired.  Gulp variant, for a
    well-formed [gulpPipeCreateFns]: the constructor returns the plugin,
    its effects are those of the wiring followed by those of one
    [bundle()] call, the [finish] listener carries no changed files and
    nothing is logged.  Exorcist variant: the same for every
    configuration. *)
Theorem construction_runs_initial_build `{Node} (cfg : BrunchConfig) (argv : list string)
    beginTime (w : World) :
  (∀ names,
     custom_names (gulpPipeCreateFns (anotherBrowserify cfg)) = Some names →
     ∃ self,
       let i := Gulp.init cfg argv w in
       let r := Gulp.AnotherBrowserifyBrunchPlugin cfg argv beginTime w in
       outcome i = Ok self ∧
       outcome r = Ok self ∧
       world r = world i ∧
       trace r = trace i ++ trace (Gulp.bundle self None beginTime (world i)) ∧
       bundler_runs (trace i) = 0%nat ∧
       bundler_runs (trace r) = 1%nat ∧
       listeners "finish" (trace r) = [OnFinish None beginTime] ∧
       logged (trace r) = []) ∧
  (∃ self,
     let i := Exorcist.init cfg argv w in
     let r := Exorcist.AnotherBrowserifyBrunchPlugin cfg argv beginTime w in
     outcome i = Ok self ∧
     outcome r = Ok self ∧
     world r = world i ∧
     trace r = trace i ++ trace (Exorcist.bundle self None beginTime (world i)) ∧
     bundler_runs (trace i) = 0%nat ∧
     bundler_runs (trace r) = 1%nat ∧
     listeners "finish" (trace r) = [OnFinish None beginTime] ∧
     logged (trace r) = []).
Proof.
  split.
  - intros names Hnames.
    destruct (gulp_constructor_run cfg argv beginTime w)
      as (self & w' & b & Hinit & Hcfg & _ & Hrun).
    exists self. cbv zeta. rewrite Hinit, Hrun. cbn [outcome world trace].
    assert (custom_names (gulpPipeCreateFns (Gulp.config_ self)) = Some names) as Hself.
    { unfold Gulp.config_. by rewrite Hcfg. }
    rewrite (bundle_ok _ _ _ _ _ Hself). cbn [outcome trace].
    split_and!; try done.
    + by apply bundler_runs_wiring.
    + rewrite bundler_runs_app, bundler_runs_wiring by done. apply bundler_runs_bundle.
    + rewrite listeners_app, listeners_wiring by done.
      rewrite andb_false_r. apply listeners_bundle.
    + rewrite logged_app, logged_wiring by done. apply logged_bundle.
  - destruct (exorcist_constructor_run cfg argv beginTime w)
      as (self & w' & b & Hinit & _ & _ & _ & _ & _ & Hrun).
    exists self. cbv zeta. rewrite Hinit, Hrun. cbn [outcome world trace].
    destruct (minify_quiet (optimize cfg)) as (Hruns & Hlogs & Hlisten).
    rewrite exorcist_bundle_run. cbn [trace].
    split_and!; try done.
    + by apply bundler_runs_wiring.
    + rewrite bundler_runs_app, bundler_runs_wiring by done. apply bundler_runs_bundle.
    + rewrite listeners_app, listeners_wiring by done.
      rewrite andb_false_r. apply listeners_bundle.
    + rewrite logged_app, logged_wiring by done. apply logged_bundle.
Qed.

Lemma construction_runs_initial_build_witness :
  outcome (@Gulp.AnotherBrowserifyBrunchPlugin Posix.node
             (Sample.config true true (JArr [JFun "gulp-header"]))
             ["node"; "brunch"; "build"] (0, 0) Sample.world)
  = Ok (Sample.gulp true true (JArr [JFun "gulp-header"])).
Proof.
  destruct (proj1 (@construction_runs_initial_build Posix.node
                     (Sample.config true true (JArr [JFun "gulp-header"]))
                     ["node"; "brunch"; "build"] (0, 0) Sample.world)
              ["gulp-header"] eq_refl) as (self & Hinit & Hrun & _).
  vm_compute in Hinit. injection Hinit as <-. exact Hrun.
Defined.

(** X4.  Gulp variant: with a malformed [gulpPipeCreateFns] the
    constructor throws, but only after the bundler has been created,
    wrapped and subscribed as in a successful construction and the initial
    build has been started: [browserify] was called once, [watchify] and
    the [update] subscription are in place when in watch mode, the bundler
    ran once, and no [finish] listener exists. *)
Theorem construction_throws_after_wiring `{Node} (cfg : BrunchConfig) (argv : list string)
    beginTime (w : World) :
  custom_names (gulpPipeCreateFns (anotherBrowserify cfg)) = None →
  let r := Gulp.AnotherBrowserifyBrunchPlugin cfg argv beginTime w in
  (∃ e, outcome r = Thrown e) ∧
  (∃ bOptions, browserify_calls (trace r) = [bOptions]) ∧
  watchify_calls (trace r) = (if scan_argv argv then 1%nat else 0%nat) ∧
  listeners "update" (trace r) = (if scan_argv argv then [OnUpdate] else []) ∧
  bundler_runs (trace r) = 1%nat ∧
  listeners "finish" (trace r) = [].
Proof.
  intros Hnone r. subst r.
  destruct (gulp_constructor_run cfg argv beginTime w)
    as (self & w' & b & _ & Hcfg & _ & ->).
  destruct (bundle_shape self None beginTime w') as [chain [[Hsome _]|[_ [e ->]]]].
  { unfold Gulp.config_ in Hsome. rewrite Hcfg, Hnone in Hsome. by destruct Hsome. }
  cbn [outcome world trace]. rewrite thrown_trace.
  split; [by exists e|]. split; [exists b|split_and!].
  - rewrite browserify_calls_app, browserify_calls_prefix.
    rewrite browserify_calls_wiring by done. done.
  - rewrite watchify_calls_app, watchify_calls_prefix.
    rewrite watchify_calls_wiring by done. cbn. lia.
  - rewrite listeners_app, listeners_prefix, listeners_wiring by done.
    cbn. by rewrite andb_true_r, app_nil_r.
  - rewrite bundler_runs_app, bundler_runs_wiring by done. apply bundler_runs_prefix.
  - rewrite listeners_app, listeners_prefix, listeners_wiring by done.
    by rewrite andb_false_r.
Qed.

Lemma construction_throws_after_wiring_witness :
  listeners "update"
    (trace (@Gulp.AnotherBrowserifyBrunchPlugin Posix.node
              (Sample.config false false (JNum 3)) ["node"; "brunch"; "watch"] (0, 0)
              Sample.world))
  = [OnUpdate].
Proof.
  apply (@construction_throws_after_wiring Posix.node (Sample.config false false (JNum 3))
           ["node"; "brunch"; "watch"] (0, 0) Sample.world eq_refl).
Defined.

(** ** Teardown *)

(** X5.  In both variants [teardown] on the constructed plugin closes the
    bundler once when the constructor found ["watch"] among the arguments,
    that is exactly as often as the constructor called [watchify], and
    does nothing otherwise; it never throws and leaves the world as it
    was. *)
Theorem teardown_closes_what_was_watched `{Node} (cfg : BrunchConfig) (argv : list string)
    (w w'' : World) :
  (∃ self,
     outcome (Gulp.init cfg argv w) = Ok self ∧
     Gulp.teardown self w'' =
       {| outcome := Ok tt; world := w'';
          trace := if bool_decide ("watch" ∈ argv) then [EClose] else [] |} ∧
     closes (trace (Gulp.teardown self w'')) = watchify_calls (trace (Gulp.init cfg argv w))) ∧
  (∃ self,
     outcome (Exorcist.init cfg argv w) = Ok self ∧
     Exorcist.teardown self w'' =
       {| outcome := Ok tt; world := w'';
          trace := if bool_decide ("watch" ∈ argv) then [EClose] else [] |} ∧
     closes (trace (Exorcist.teardown self w'')) =
       watchify_calls (trace (Exorcist.init cfg argv w))).
Proof.
  assert (bool_decide ("watch" ∈ argv) = scan_argv argv) as ->.
  { destruct (scan_argv argv) eqn:Hscan.
    - apply bool_decide_eq_true, scan_argv_watch, Hscan.
    - apply bool_decide_eq_false, scan_argv_no_watch, Hscan. }
  split.
  - destruct (gulp_constructor_run cfg argv (0, 0) w)
      as (self & w' & b & Hinit & _ & Hwatching & _).
    exists self. rewrite Hinit. cbn [outcome trace]. split; [done|].
    unfold Gulp.teardown. rewrite Hwatching, watchify_calls_wiring by done.
    by destruct (scan_argv argv).
  - destruct (exorcist_constructor_run cfg argv (0, 0) w)
      as (self & w' & b & Hinit & _ & Hwatching & _).
    exists self. rewrite Hinit. cbn [outcome trace]. split; [done|].
    unfold Exorcist.teardown.
    rewrite Hwatching, watchify_calls_wiring by apply minify_has_no_watchify.
    by destruct (scan_argv argv).
Qed.

(** ** What construction does to the host's objects *)

(** X6.  Construction never removes or changes a property of an object
    the host already has, never touches a file and leaves the clock
    alone, whether it returns or throws.  In the gulp variant the only
    key it can add to a host object is [compress]; in the exorcist variant
    every host object is left exactly as it was. *)
Theorem construction_preserves_host_objects `{Node} (cfg : BrunchConfig)
    (argv : list string) beginTime (w : World) :
  (let r := Gulp.AnotherBrowserifyBrunchPlugin cfg argv beginTime w in
   mtimes (world r) = mtimes w ∧
   clock (world r) = clock w ∧
   touched (trace r) = [] ∧
   (∀ l k v, props_of (heap w) l !! k = Some v →
             props_of (heap (world r)) l !! k = Some v) ∧
   (∀ l k, l ∈ dom (heap w) → k ≠ "compress" →
           props_of (heap (world r)) l !! k = props_of (heap w) l !! k)) ∧
  (let r := Exorcist.AnotherBrowserifyBrunchPlugin cfg argv beginTime w in
   mtimes (world r) = mtimes w ∧
   clock (world r) = clock w ∧
   touched (trace r) = [] ∧
   (∀ l, l ∈ dom (heap w) → heap (world r) !! l = heap w !! l)).
Proof.
  assert (∀ b minify, touched minify = [] → touched (wiring cfg argv b minify) = []) as Hwiring.
  { intros b minify Hminify. unfold wiring, touched in *. rewrite !omap_app, Hminify.
    rewrite omap_transforms by done. by destruct (scan_argv argv). }
  split.
  - cbv zeta.
    destruct (gulp_init_run cfg argv w)
      as (l0 & w2 & Hm2 & Hc2 & Hdom & Hsame & Hkeep & _ & Hinit).
    destruct (make_bOptions_run cfg (scan_argv argv) w2)
      as (b & w' & Hb & Hm & Hc & Hold & _).
    specialize (Hinit _ _ Hb).
    destruct (gulp_constructor_run cfg argv beginTime w)
      as (self & w1 & b1 & Hinit1 & _ & _ & ->).
    rewrite Hinit in Hinit1. injection Hinit1 as <- <- <-.
    cbn [world trace].
    assert (∀ l, l ∈ dom (heap w) → props_of (heap w') l = props_of (heap w2) l) as Hprops.
    { intros l Hl. unfold props_of. rewrite Hold; [done|set_solver]. }
    split_and!; try congruence.
    + rewrite touched_app, Hwiring by done.
      match goal with
      | |- context [Gulp.bundle ?self None beginTime w'] =>
          by destruct (gulp_bundle_quiet self None beginTime w')
      end.
    + intros l k v Hv. rewrite Hprops by (by eapply props_lookup_dom).
      destruct (decide (k = "compress")) as [->|Hk]; [by apply Hkeep|by rewrite Hsame].
    + intros l k Hl Hk. by rewrite Hprops, Hsame.
  - cbv zeta.
    destruct (exorcist_constructor_run cfg argv beginTime w)
      as (self & w' & b & _ & _ & _ & Hold & Hm & Hc & ->).
    cbn [world trace]. split_and!; try done.
    rewrite touched_app, Hwiring by (by destruct (optimize cfg)).
    rewrite exorcist_bundle_run. cbn [trace]. apply touched_bundle.
Qed.

(** ** Runs that fail, runs without a notification, empty notifications *)

(** X7.  A run whose bundle stream emits [error] does not throw: the
    error is written once to [console.error], wrapped twice in red;
    [console.log] holds nothing but the start line of a multi-file
    rebuild, nothing is touched and the world is as before.  (Gulp variant
    for a well-formed [gulpPipeCreateFns], exorcist variant always.) *)
Theorem failed_run_only_logs_the_error `{Node} :
  (∀ (self : Gulp.Plugin) changedFiles beginTime (error : string) (w : World) names,
     custom_names (gulpPipeCreateFns (Gulp.config_ self)) = Some names →
     let r := Gulp.run self changedFiles beginTime (Failed error) w in
     outcome r = Ok tt ∧
     world r = w ∧
     error_logged (trace r) = [[chalk_red (chalk_red error)]] ∧
     logged (trace r) = (if multiple changedFiles then [start_bundling] else []) ∧
     touched (trace r) = []) ∧
  (∀ (self : Exorcist.Plugin) changedFiles beginTime (error : string) (w : World),
     let r := Exorcist.run self changedFiles beginTime (Failed error) w in
     outcome r = Ok tt ∧
     world r = w ∧
     error_logged (trace r) = [[chalk_red (chalk_red error)]] ∧
     logged (trace r) = (if multiple changedFiles then [start_bundling] else []) ∧
     touched (trace r) = []).
Proof.
  split.
  - intros self cf bt error w names Hnames r. subst r.
    rewrite (gulp_run_failed _ _ _ _ _ _ Hnames), (bundle_ok _ _ _ _ _ Hnames).
    unfold after, Gulp.on_error, console_error, emit. cbn [outcome world trace].
    rewrite error_logged_app, logged_app, touched_app.
    rewrite error_logged_prefix, logged_prefix, touched_prefix.
    cbn. by rewrite ?app_nil_r.
  - intros self cf bt error w r. subst r.
    rewrite exorcist_run_failed, exorcist_bundle_run.
    unfold after, Exorcist.on_error, console_error, emit. cbn [outcome world trace].
    rewrite error_logged_app, logged_app, touched_app.
    rewrite error_logged_prefix, logged_prefix, touched_prefix.
    cbn. by rewrite ?app_nil_r.
Qed.

Lemma failed_run_only_logs_the_error_witness :
  error_logged
    (trace (@Gulp.run Posix.node (Sample.gulp true true JUndefined)
              (Some ["/home/app/app/a.js"]) (0, 0) (Failed "SyntaxError: a.js") Sample.world))
  = [["SyntaxError: a.js"]].
Proof.
  destruct (proj1 (@failed_run_only_logs_the_error Posix.node)
              (Sample.gulp true true JUndefined) (Some ["/home/app/app/a.js"]) (0, 0)
              "SyntaxError: a.js" Sample.world [] eq_refl) as (_ & _ & Herr & _).
  exact Herr.
Defined.

(** X8.  A build without a change notification, as the initial build of
    the constructor, reports no file when it finishes: the gulp variant
    logs only its reload line, and only when a sentinel is configured; the
    exorcist variant logs nothing.  The sentinel is touched all the
    same. *)
Theorem build_without_notification_reports_nothing `{Node} :
  (∀ (self : Gulp.Plugin) beginTime endTime (w : World) names,
     custom_names (gulpPipeCreateFns (Gulp.config_ self)) = Some names →
     let r := Gulp.run self None beginTime (Finished endTime) w in
     outcome r = Ok tt ∧
     logged (trace r) =
       match sentinel (Gulp.config_ self) with Some _ => [reload_line] | None => [] end ∧
     touched (trace r) =
       match sentinel (Gulp.config_ self) with Some file => [file] | None => [] end) ∧
  (∀ (self : Exorcist.Plugin) beginTime endTime (w : World),
     let r := Exorcist.run self None beginTime (Finished endTime) w in
     outcome r = Ok tt ∧
     logged (trace r) = [] ∧
     touched (trace r) =
       match sentinel (Exorcist.config_ self) with Some file => [file] | None => [] end).
Proof.
  assert (@None (list string) ≠ Some []) as Hcf by done.
  split.
  - intros self bt et w names Hnames r.
    by destruct (gulp_finished self None bt et w names Hnames Hcf) as (? & _ & _ & ? & ?).
  - intros self bt et w r.
    by destruct (exorcist_finished self None bt et w Hcf) as (? & _ & _ & ? & ?).
Qed.

Lemma build_without_notification_reports_nothing_witness :
  logged (trace (@Gulp.run Posix.node (Sample.gulp false false JUndefined) None (0, 0)
                   (Finished (1, 0)) Sample.world))
  = [[TAB +:+ "Triggering browser reload"]].
Proof.
  destruct (proj1 (@build_without_notification_reports_nothing Posix.node)
              (Sample.gulp false false JUndefined) (0, 0) (1, 0) Sample.world [] eq_refl)
    as (_ & Hlog & _).
  exact Hlog.
Defined.

(** X9.  A change notification with an empty list of files makes the
    [finish] listener throw a [TypeError] on [changedFiles[0]].  The gulp
    listener reports before it touches, so the sentinel is left
    untouched; the exorcist listener touches first, so the sentinel has
    been touched when the error is thrown.  Neither logs a line. *)
Theorem empty_notification_throws_in_finish `{Node} :
  (∀ (self : Gulp.Plugin) beginTime endTime (w : World) names,
     custom_names (gulpPipeCreateFns (Gulp.config_ self)) = Some names →
     let r := Gulp.run self (Some []) beginTime (Finished endTime) w in
     outcome r = Thrown undefined_file ∧
     world r = w ∧
     touched (trace r) = [] ∧
     logged (trace r) = []) ∧
  (∀ (self : Exorcist.Plugin) beginTime endTime (w : World),
     let r := Exorcist.run self (Some []) beginTime (Finished endTime) w in
     outcome r = Thrown undefined_file ∧
     world r = touch_world (sentinel (Exorcist.config_ self)) w ∧
     touched (trace r) =
       match sentinel (Exorcist.config_ self) with Some file => [file] | None => [] end ∧
     logged (trace r) = []).
Proof.
  split.
  - intros self bt et w names Hnames r. subst r.
    rewrite (gulp_run_finished _ _ _ _ _ _ Hnames), (bundle_ok _ _ _ _ _ Hnames).
    unfold Gulp.on_finish. cbv zeta. cbn [multiple length bool_decide].
    rewrite bool_decide_false by (simpl; lia).
    rewrite bind_throw. unfold after. cbn [outcome world trace].
    rewrite app_nil_r, touched_prefix, logged_prefix.
    cbn [multiple length]. rewrite bool_decide_false by (simpl; lia). done.
  - intros self bt et w r. subst r.
    rewrite exorcist_run_finished, exorcist_bundle_run.
    unfold Exorcist.on_finish.
    assert (match touchOnCompile (Exorcist.config_ self) with
            | Some file => if truthy (JStr file) then touch_sync (path_resolve1 file) else skip
            | None => skip
            end w =
            {| outcome := Ok tt;
               world := touch_world (sentinel (Exorcist.config_ self)) w;
               trace := match sentinel (Exorcist.config_ self) with
                        | Some file => [ETouch file]
                        | None => []
                        end |}) as Htouch.
    { unfold sentinel. destruct (touchOnCompile _) as [file|]; [|done].
      by destruct (truthy (JStr file)). }
    erewrite bind_ok by exact Htouch. cbv zeta. cbn [multiple length].
    rewrite bool_decide_false by (simpl; lia).
    unfold throw, after. cbn [outcome world trace].
    rewrite app_nil_r.
    rewrite (touched_app (start_line _ ++ _)), (logged_app (start_line _ ++ _)).
    rewrite touched_prefix, logged_prefix.
    cbn [multiple length]. rewrite bool_decide_false by (simpl; lia).
    split_and!; try done; by destruct (sentinel _).
Qed.

Lemma empty_notification_throws_in_finish_witness :
  mtimes (world (@Gulp.run Posix.node (Sample.gulp false false JUndefined) (Some []) (0, 0)
                   (Finished (1, 0)) Sample.world)) = mtimes Sample.world.
Proof.
  destruct (proj1 (@empty_notification_throws_in_finish Posix.node)
              (Sample.gulp false false JUndefined) (0, 0) (1, 0) Sample.world [] eq_refl)
    as (_ & Hworld & _).
  by rewrite Hworld.
Defined.

(** ** The elapsed time *)

(** X10.  For two well-formed readings of [process.hrtime()], the second
    not before the first and less than 2^34 milliseconds (some 198 days)
    after it, the reported duration is the elapsed time in whole
    milliseconds, rounded down, also when the nanosecond part of the end
    reading is below that of the begin reading.  Within that range the
    double-precision arithmetic of the source and the exact arithmetic of
    [elapsed_ms] give the same number. *)
Theorem elapsed_ms_is_floor_of_elapsed_time (beginTime endTime : HrTime) :
  0 ≤ beginTime.1 →
  endTime.1 < 9007199254740992 →
  0 ≤ beginTime.2 < 1000000000 →
  0 ≤ endTime.2 < 1000000000 →
  0 ≤ elapsed_ns beginTime endTime < 17179869184 * 1000000 →
  elapsed_ms beginTime endTime * 1000000 ≤ elapsed_ns beginTime endTime
    < (elapsed_ms beginTime endTime + 1) * 1000000 ∧
  0 ≤ elapsed_ms beginTime endTime < 17179869184.
Proof.
  unfold elapsed_ms, elapsed_ns. cbv zeta.
  set (s := endTime.1 - beginTime.1). set (n := endTime.2 - beginTime.2).
  intros _ _ _ _ Hrange.
  pose proof (Z.div_mod n 1000000 ltac:(lia)) as Hdiv.
  pose proof (Z.mod_pos_bound n 1000000 ltac:(lia)) as Hmod.
  lia.
Qed.

Lemma elapsed_ms_is_floor_of_elapsed_time_witness :
  elapsed_ns (1, 999000000) (3, 5) = 1001000005 ∧
  elapsed_ms (1, 999000000) (3, 5) * 1000000 ≤ 1001000005
    < (elapsed_ms (1, 999000000) (3, 5) + 1) * 1000000.
Proof.
  split; [reflexivity|].
  apply (proj1 (elapsed_ms_is_floor_of_elapsed_time (1, 999000000) (3, 5)
                  ltac:(simpl; lia) ltac:(simpl; lia) ltac:(simpl; lia) ltac:(simpl; lia)
                  ltac:(unfold elapsed_ns; simpl; lia))).
Defined.

(** ** The flags switched off *)

Section FlagsOff.
Context `{Node}.

(** New objects are empty and an absent object reads as empty, so the
    options merge changes the properties of no address. *)
Lemma make_bOptions_props (cfg : BrunchConfig) (watching : bool) (w : World) (l : loc) :
  props_of (heap (world (make_bOptions cfg watching w))) l = props_of (heap w) l.
Proof.
  unfold make_bOptions. erewrite bind_ok by apply copy_keys_run. rewrite after_nil.
  destruct watching; [|done].
  erewrite bind_ok by apply alloc_run. rewrite after_nil. cbv zeta.
  erewrite bind_ok by apply alloc_run. rewrite after_nil, ret_run. cbn [world heap].
  set (c := fresh (dom (heap w))).
  set (pc := fresh (dom (<[c := ∅]> (heap w)))).
  assert (heap w !! c = None) as Hc by (apply not_elem_of_dom, is_fresh).
  assert (<[c := ∅]> (heap w) !! pc = None) as Hpc by (apply not_elem_of_dom, is_fresh).
  unfold props_of.
  destruct (decide (l = pc)) as [->|Hne].
  - rewrite lookup_insert_eq. destruct (decide (pc = c)) as [Heq|Hne'].
    + rewrite Heq in Hpc. by rewrite lookup_insert_eq in Hpc.
    + rewrite lookup_insert_ne in Hpc by done. by rewrite Hpc.
  - rewrite lookup_insert_ne by done. destruct (decide (l = c)) as [->|Hne'].
    + by rewrite lookup_insert_eq, Hc.
    + by rewrite lookup_insert_ne.
Qed.

(** Without source maps, lines 42-46 add nothing to any object. *)
Lemma uglify_setup_plain (cfg : BrunchConfig) (w : World) :
  sourceMaps cfg = false →
  ∃ l w2,
    (∀ l', props_of (heap w2) l' = props_of (heap w) l') ∧
    props_of (heap w2) l !! "compress" = host_compress cfg (heap w) ∧
    ∀ B (k : loc → M B),
      (uglifyOptions ← match uglifyOptions (anotherBrowserify cfg) with
                       | Some l => mret l
                       | None => alloc ∅
                       end;
       (if sourceMaps cfg then
          present ← has_property uglifyOptions "compress";
          if negb present then set_property uglifyOptions "compress" (JBool false) else skip
        else skip);;
       k uglifyOptions) w = k l w2.
Proof.
  intros Hsm. unfold host_compress. rewrite Hsm.
  destruct (uglifyOptions (anotherBrowserify cfg)) as [l0|].
  - exists l0, w. split_and!; try done.
    intros B k. erewrite bind_ok; [|done]. rewrite after_nil. by rewrite bind_skip.
  - set (l := fresh (dom (heap w))).
    assert (heap w !! l = None) as Hnone by (apply not_elem_of_dom, is_fresh).
    exists l, {| heap := <[l := ∅]> (heap w); mtimes := mtimes w; clock := clock w |}.
    cbn [heap]. split_and!.
    + intros l'. unfold props_of. destruct (decide (l' = l)) as [->|Hne].
      * by rewrite lookup_insert_eq, Hnone.
      * by rewrite lookup_insert_ne.
    + unfold props_of. by rewrite lookup_insert_eq.
    + intros B k. erewrite bind_ok; [|apply alloc_run]. rewrite after_nil. fold l.
      by rewrite bind_skip.
Qed.
End FlagsOff.

(** The gulp constructor, up to the initial build, without source maps. *)
Lemma gulp_init_plain `{Node} (cfg : BrunchConfig) (argv : list string) (w : World) :
  sourceMaps cfg = false →
  ∃ self w' bOptions,
    Gulp.init cfg argv w =
      {| outcome := Ok self; world := w'; trace := wiring cfg argv bOptions [] |} ∧
    Gulp.brunchConfig_ self = cfg ∧
    (∀ l, props_of (heap w') l = props_of (heap w) l) ∧
    props_of (heap w') (Gulp.uglifyOptions_ self) !! "compress" = host_compress cfg (heap w) ∧
    bOptions !! "debug" = user_options cfg (heap w) !! "debug".
Proof.
  intros Hsm.
  destruct (uglify_setup_plain cfg w Hsm) as (l & w2 & Hprops & Hcompress & Hk).
  destruct (make_bOptions_run cfg (scan_argv argv) w2)
    as (b & w' & Hb & _ & _ & _ & _ & Hdebug & _).
  assert (∀ l', props_of (heap w') l' = props_of (heap w2) l') as Hprops'.
  { intros l'. rewrite <-(make_bOptions_props cfg (scan_argv argv) w2 l'). by rewrite Hb. }
  exists {| Gulp.brunchConfig_ := cfg;
            Gulp.entryFile_ := path_resolve1 (entry (anotherBrowserify cfg));
            Gulp.gulpDestDir_ := path_resolve1 (paths_public cfg);
            Gulp.outFile_ := path_resolve2 (paths_public cfg) (outFile (anotherBrowserify cfg));
            Gulp.uglifyOptions_ := l;
            Gulp.gulpRenameOptions_ :=
              {| dirname := path_dirname (outFile (anotherBrowserify cfg));
                 basename := path_basename (outFile (anotherBrowserify cfg))
                               (path_extname (outFile (anotherBrowserify cfg)));
                 extname := path_extname (outFile (anotherBrowserify cfg)) |};
            Gulp.watching_ := scan_argv argv |}, w', b.
  split_and!.
  - unfold Gulp.init, wiring. cbv zeta. rewrite Hk.
    erewrite bind_ok; [|exact Hb]. rewrite after_nil. run_step.
    destruct (scan_argv argv), (transforms (anotherBrowserify cfg)) as [trs|]; run_step;
      try (erewrite bind_ok; [|apply forEach_emit]); run_step; unfold emit; run_step;
      cbn [default map app]; same_trace.
  - done.
  - intros l'. by rewrite Hprops', Hprops.
  - cbn [Gulp.uglifyOptions_]. by rewrite Hprops'.
  - rewrite Hdebug, Hsm. unfold user_options.
    destruct (browserifyOptions _); [by rewrite Hprops|done].
Qed.

(** X11.  With the optimize flag off no minifier is involved: in the gulp
    variant the chain of a well-formed configuration goes from the user's
    stages straight to rename, and in the exorcist variant only the
    host's transforms are registered on the bundler, none of them
    globally. *)
Theorem no_minifier_without_optimize `{Node} :
  (∀ (self : Gulp.Plugin) changedFiles beginTime (w : World) names,
     optimize (Gulp.brunchConfig_ self) = false →
     custom_names (gulpPipeCreateFns (Gulp.config_ self)) = Some names →
     stages (trace (Gulp.bundle self changedFiles beginTime w)) =
       ([Source (Gulp.entryFile_ self); Buffer]
        ++ (if sourceMaps (Gulp.brunchConfig_ self) then [SourcemapsInit true] else []))
       ++ map Custom names
       ++ [Rename (Gulp.gulpRenameOptions_ self)]
       ++ (if sourceMaps (Gulp.brunchConfig_ self) then [SourcemapsWrite "."] else [])
       ++ [Dest (Gulp.gulpDestDir_ self)]) ∧
  (∀ (cfg : BrunchConfig) (argv : list string) (w : World),
     optimize cfg = false →
     transform_calls (trace (Exorcist.init cfg argv w)) =
       map (λ tr, (tr, false)) (default [] (transforms (anotherBrowserify cfg)))).
Proof.
  split.
  - intros self cf bt w names Hopt Hnames.
    rewrite (stages_bundle_ok _ _ _ _ _ Hnames). unfold spec_chain.
    rewrite Hopt. by rewrite <-!app_assoc.
  - intros cfg argv w Hopt.
    destruct (make_bOptions_run cfg (scan_argv argv) w) as (b & w' & Hb & _).
    rewrite (exorcist_init_run _ _ _ _ _ Hb). cbn [trace].
    rewrite transform_calls_wiring, Hopt. cbn. by rewrite app_nil_r.
Qed.

Lemma no_minifier_without_optimize_witness :
  stages (trace (@Gulp.bundle Posix.node (Sample.gulp true false (JArr [JFun "gulp-header"]))
                   None (0, 0) Sample.world)) =
    [Source "/home/app/app/main.js"; Buffer; SourcemapsInit true; Custom "gulp-header";
     Rename {| dirname := "js"; basename := "app.min"; extname := ".js" |};
     SourcemapsWrite "."; Dest "/home/app/public"] ∧
  transform_calls (trace (@Exorcist.init Posix.node (Sample.config true false JUndefined)
                            ["node"; "brunch"; "build"] Sample.world)) =
    [(JStr "babelify", false)].
Proof.
  split.
  - apply (proj1 (@no_minifier_without_optimize Posix.node)
             (Sample.gulp true false (JArr [JFun "gulp-header"])) None (0, 0) Sample.world
             ["gulp-header"]); reflexivity.
  - apply (proj2 (@no_minifier_without_optimize Posix.node)
             (Sample.config true false JUndefined) ["node"; "brunch"; "build"] Sample.world).
    reflexivity.
Defined.

(** X12.  With the source-maps flag off nothing is forced: the [debug]
    option handed to [browserify] is the host's, if any; in the gulp
    variant the minifier's [compress] option is the host's, if any, no
    property of any object changes and the chain has no source-map stage;
    in the exorcist variant the bundle goes straight into the write
    stream of the output file. *)
Theorem nothing_forced_without_source_maps `{Node} (cfg : BrunchConfig)
    (argv : list string) (w : World) :
  sourceMaps cfg = false →
  (∃ self w' bOptions,
     outcome (Gulp.init cfg argv w) = Ok self ∧
     world (Gulp.init cfg argv w) = w' ∧
     browserify_calls (trace (Gulp.init cfg argv w)) = [bOptions] ∧
     bOptions !! "debug" = user_options cfg (heap w) !! "debug" ∧
     props_of (heap w') (Gulp.uglifyOptions_ self) !! "compress" = host_compress cfg (heap w) ∧
     (∀ l, props_of (heap w') l = props_of (heap w) l) ∧
     ∀ names changedFiles beginTime,
       custom_names (gulpPipeCreateFns (anotherBrowserify cfg)) = Some names →
       stages (trace (Gulp.bundle self changedFiles beginTime w')) =
         [Source (Gulp.entryFile_ self); Buffer]
         ++ map Custom names
         ++ (if optimize cfg then [Uglify (Gulp.uglifyOptions_ self)] else [])
         ++ [Rename (Gulp.gulpRenameOptions_ self); Dest (Gulp.gulpDestDir_ self)]) ∧
  (∃ self w' bOptions,
     outcome (Exorcist.init cfg argv w) = Ok self ∧
     world (Exorcist.init cfg argv w) = w' ∧
     browserify_calls (trace (Exorcist.init cfg argv w)) = [bOptions] ∧
     bOptions !! "debug" = user_options cfg (heap w) !! "debug" ∧
     ∀ changedFiles beginTime,
       stages (trace (Exorcist.bundle self changedFiles beginTime w')) =
         [WriteStream (path_resolve2 (paths_public cfg) (outFile (anotherBrowserify cfg)))]).
Proof.
  intros Hsm. split.
  - destruct (gulp_init_plain cfg argv w Hsm)
      as (self & w' & b & Hinit & Hcfg & Hprops & Hcompress & Hdebug).
    rewrite Hinit. cbn [outcome world trace].
    exists self, w', b. split_and!; try done.
    + by apply browserify_calls_wiring.
    + intros names cf bt Hnames.
      assert (custom_names (gulpPipeCreateFns (Gulp.config_ self)) = Some names) as Hself.
      { unfold Gulp.config_. by rewrite Hcfg. }
      rewrite (stages_bundle_ok _ _ _ _ _ Hself). unfold spec_chain.
      rewrite Hcfg, Hsm. destruct (optimize cfg); cbn [app]; by rewrite ?app_nil_r.
  - destruct (make_bOptions_run cfg (scan_argv argv) w)
      as (b & w' & Hb & _ & _ & _ & _ & Hdebug & _).
    rewrite (exorcist_init_run _ _ _ _ _ Hb). cbn [outcome world trace].
    eexists _, w', b. split_and!; try reflexivity.
    + apply browserify_calls_wiring, minify_has_no_browserify.
    + by rewrite Hdebug, Hsm.
    + intros cf bt. rewrite exorcist_bundle_run. cbn [trace].
      rewrite stages_prefix. cbn [Exorcist.brunchConfig_ Exorcist.outFile_].
      by rewrite Hsm.
Qed.

Lemma nothing_forced_without_source_maps_witness :
  ∃ bOptions : gmap string JsVal,
    browserify_calls (trace (@Gulp.init Posix.node (Sample.config false true JUndefined)
                               ["node"; "brunch"; "build"] Sample.world)) = [bOptions] ∧
    bOptions !! "debug" = Some (JBool false).
Proof.
  destruct (@nothing_forced_without_source_maps Posix.node (Sample.config false true JUndefined)
              ["node"; "brunch"; "build"] Sample.world eq_refl)
    as [(self & w' & bOptions & _ & _ & Hcalls & Hdebug & _) _].
  exists bOptions. split; [exact Hcalls|]. rewrite Hdebug. reflexivity.
Defined.

(** ** More on strings and options *)

(** X13.  [stripFromBeginning] removes nothing but one leading copy of a
    non-empty query: its result is the subject itself, or the subject is
    the query followed by the result.  A second copy of the query that
    follows the first is kept, and so is a copy that is not at the
    start. *)
Theorem stripFromBeginning_removes_one_leading_query (subject : string)
    (query : option string) :
  (stripFromBeginning subject query = subject ∨
   ∃ q, query = Some q ∧ q ≠ "" ∧ subject = q +:+ stripFromBeginning subject query) ∧
  (∀ q rest, stripFromBeginning (q +:+ (q +:+ rest)) (Some q) = q +:+ rest) ∧
  (∀ q, 0 < indexOf subject q → stripFromBeginning subject (Some q) = subject).
Proof.
  split_and!.
  - destruct query as [q|]; [|by left].
    destruct (String.prefix q subject) eqn:Hprefix.
    + apply prefix_begins_with in Hprefix as [rest ->].
      rewrite stripFromBeginning_begins.
      destruct (decide (q = "")) as [->|Hq]; [by left|]. right. by exists q.
    + left. apply stripFromBeginning_other.
      intros Hbegins%prefix_begins_with. congruence.
  - intros q rest. apply stripFromBeginning_begins.
  - intros q Hpos. apply stripFromBeginning_other.
    intros Hbegins%indexOf_zero. lia.
Qed.

Lemma stripFromBeginning_removes_one_leading_query_witness :
  stripFromBeginning "/srv/home/app/a.js" (Some "/home/app/") = "/srv/home/app/a.js".
Proof.
  apply (proj2 (proj2 (stripFromBeginning_removes_one_leading_query
                         "/srv/home/app/a.js" (Some "/home/app/")))).
  vm_compute. reflexivity.
Defined.

(** X14.  The options handed to [browserify] hold no key of the
    constructor's own besides [extensions], [debug], [cache] and
    [packageCache]: any other key the host did not supply is absent (in
    the gulp variant [compress] is left aside, as the host's object may
    be the very object the compressor workaround writes to). *)
Theorem no_other_keys_are_added `{Node} (cfg : BrunchConfig) (argv : list string)
    (w : World) (k : string) :
  user_options cfg (heap w) !! k = None →
  k ∉ ["extensions"; "debug"; "cache"; "packageCache"] →
  (k ≠ "compress" →
   ∃ bOptions,
     browserify_calls (trace (Gulp.init cfg argv w)) = [bOptions] ∧ bOptions !! k = None) ∧
  (∃ bOptions,
     browserify_calls (trace (Exorcist.init cfg argv w)) = [bOptions] ∧ bOptions !! k = None).
Proof.
  intros Huser Hk.
  assert (k ≠ "extensions" ∧ k ≠ "debug" ∧ k ≠ "cache" ∧ k ≠ "packageCache")
    as (? & ? & ? & ?) by set_solver.
  split.
  - intros Hcompress.
    destruct (gulp_init_run cfg argv w) as (l & w2 & _ & _ & _ & Hsame & _ & _ & Hinit).
    destruct (make_bOptions_run cfg (scan_argv argv) w2)
      as (b & w' & Hb & _ & _ & _ & Hother & _).
    rewrite (Hinit _ _ Hb). cbn [trace]. exists b.
    split; [by apply browserify_calls_wiring|].
    rewrite Hother by done. rewrite lookup_union, lookup_default_bOptions by done.
    assert (user_options cfg (heap w2) !! k = None) as ->; [|done].
    rewrite <-Huser. unfold user_options.
    destruct (browserifyOptions _); [by apply Hsame|done].
  - destruct (make_bOptions_run cfg (scan_argv argv) w)
      as (b & w' & Hb & _ & _ & _ & Hother & _).
    rewrite (exorcist_init_run _ _ _ _ _ Hb). cbn [trace]. exists b.
    split; [apply browserify_calls_wiring, minify_has_no_browserify|].
    rewrite Hother by done. by rewrite lookup_union, lookup_default_bOptions, Huser.
Qed.

Lemma no_other_keys_are_added_witness :
  ∃ bOptions : gmap string JsVal,
    browserify_calls (trace (@Exorcist.init Posix.node (Sample.config true true JUndefined)
                               ["node"; "brunch"; "watch"] Sample.world)) = [bOptions] ∧
    bOptions !! "entries" = None.
Proof.
  assert ("entries" ∉ ["extensions"; "debug"; "cache"; "packageCache"]) as Hk.
  { intros Hin. repeat (apply elem_of_cons in Hin as [Heq|Hin]; [discriminate Heq|]).
    by apply elem_of_nil in Hin. }
  exact (proj2 (@no_other_keys_are_added Posix.node (Sample.config true true JUndefined)
                  ["node"; "brunch"; "watch"] Sample.world "entries" eq_refl Hk)).
Defined.

(** X15.  Exorcist variant without source maps: what the bundler emits is
    written as it is to the output file, resolved against the public
    directory, by every build of the constructed plugin, with or without
    the optimize flag (minification happens inside the bundler). *)
Theorem exorcist_plain_build_writes_bundle `{Node} (cfg : BrunchConfig) (argv : list string)
    (w : World) changedFiles beginTime (opaque : Stage → Flow → Flow) (raw : string) :
  sourceMaps cfg = false →
  ∃ self w',
    outcome (Exorcist.init cfg argv w) = Ok self ∧
    world (Exorcist.init cfg argv w) = w' ∧
    outcome (Exorcist.bundle self changedFiles beginTime w') = Ok tt ∧
    drain opaque (stages (trace (Exorcist.bundle self changedFiles beginTime w'))) (Text raw) =
      [(path_resolve2 (paths_public cfg) (outFile (anotherBrowserify cfg)), raw)].
Proof.
  intros Hsm.
  destruct (make_bOptions_run cfg (scan_argv argv) w) as (b & w' & Hb & _).
  rewrite (exorcist_init_run _ _ _ _ _ Hb). cbn [outcome world].
  eexists _, w'. split; [reflexivity|]. split; [reflexivity|].
  rewrite exorcist_bundle_run. cbn [outcome trace]. split; [done|].
  rewrite stages_prefix. cbn [Exorcist.brunchConfig_ Exorcist.outFile_].
  by rewrite Hsm.
Qed.

Lemma exorcist_plain_build_writes_bundle_witness :
  drain (H := Posix.node) (λ _ flow, flow)
    (stages (trace (@Exorcist.bundle Posix.node (Sample.exorcist false true JUndefined)
                      None (0, 0) Sample.world)))
    (Text "var a=1;")
  = [("/home/app/public/js/app.min.js", "var a=1;")].
Proof.
  destruct (@exorcist_plain_build_writes_bundle Posix.node (Sample.config false true JUndefined)
              ["node"; "brunch"; "build"] Sample.world None (0, 0) (λ _ flow, flow)
              "var a=1;" eq_refl) as (self & w' & Hself & Hw' & _ & Hdrain).
  vm_compute in Hself. injection Hself as <-.
  vm_compute in Hw'. subst w'.
  exact Hdrain.
Defined.
